(** * A shallow embedding of [app.py]

    The service has three POST routes: [/extract] (text of a PDF, capped at
    [MAX_CHARS]), [/excel-cleaner] (cell cleaning and de-duplication of a
    table) and [/pdf-compress] (Ghostscript behind a scratch directory), and
    one [before_request] hook that removes day-old files from [static].

    Python strings are sequences of code points, so a [str] is a [list N];
    [len], slicing, [strip], [split], [join], [lower] and [capitalize] are
    written over that list.  The classification and case tables of the
    interpreter's Unicode database are fixed here on ASCII, where every
    Python 3 agrees, and taken from a [UnicodeData] record above it.

    The libraries behind the routes (PyMuPDF, pandas, werkzeug, Ghostscript)
    are functions handed to the routes; the file system is the [static]
    directory as a finite map, threaded through a request together with the
    list of effects performed. Logging calls and the 413 handler are left
    out: they decide nothing below. *)

From Stdlib Require Import ZArith NArith List String Ascii Bool Lia Floats.
From stdpp Require Import base option list gmap.

Local Open Scope N_scope.

(** ** Python [str] *)

Abbreviation pystr := (list N).

(** A literal: the code points of an ASCII string. *)
Definition py (s : string) : pystr := map N_of_ascii (list_ascii_of_string s).

Definition in_range (lo hi c : N) : bool := (lo <=? c) && (c <=? hi).

(** [Py_UNICODE_ISSPACE]: the code points [str.isspace], [str.strip],
    [str.split] and the pattern class [\s] all test. *)
Definition py_isspace (c : N) : bool :=
  in_range 0x09 0x0D c || in_range 0x1C 0x20 c
  || (c =? 0x85) || (c =? 0xA0) || (c =? 0x1680)
  || in_range 0x2000 0x200A c || (c =? 0x2028) || (c =? 0x2029)
  || (c =? 0x202F) || (c =? 0x205F) || (c =? 0x3000).

Definition ascii_isalnum (c : N) : bool :=
  in_range 48 57 c || in_range 65 90 c || in_range 97 122 c.

Definition ascii_lower (c : N) : N := if in_range 65 90 c then c + 32 else c.
Definition ascii_upper (c : N) : N := if in_range 97 122 c then c - 32 else c.

(** The part of the interpreter's Unicode database the program reaches and
    this file does not fix: above ASCII, which code points are alphanumeric
    ([Py_UNICODE_ISALNUM]), the lower-casing of the code point at an index of
    a string (the index is there for the final-sigma rule) and the
    title-casing [capitalize] applies to a first character. *)
Record UnicodeData := {
  ucd_isalnum : N -> bool;
  ucd_tolower : pystr -> nat -> pystr;
  ucd_totitle : N -> pystr
}.

Section Str.
Variable U : UnicodeData.

Definition py_isalnum (c : N) : bool :=
  if c <? 128 then ascii_isalnum c else ucd_isalnum U c.

(** The pattern class [\w] on a [str] pattern: alphanumeric or underscore. *)
Definition re_word (c : N) : bool := py_isalnum c || (c =? 95).

Fixpoint lower_from (whole : pystr) (i : nat) (s : pystr) : pystr :=
  match s with
  | [] => []
  | c :: s' =>
      (if c <? 128 then [ascii_lower c] else ucd_tolower U whole i)
        ++ lower_from whole (S i) s'
  end.

(** [str.lower()] *)
Definition py_lower (s : pystr) : pystr := lower_from s 0 s.

(** [str.capitalize()]: the first character title-cased, the rest lowered. *)
Definition py_capitalize (s : pystr) : pystr :=
  match s with
  | [] => []
  | c :: s' =>
      (if c <? 128 then [ascii_upper c] else ucd_totitle U c)
        ++ lower_from s 1 s'
  end.
End Str.

Fixpoint lstrip (s : pystr) : pystr :=
  match s with
  | c :: s' => if py_isspace c then lstrip s' else s
  | [] => []
  end.

Definition rstrip (s : pystr) : pystr := rev (lstrip (rev s)).

(** [str.strip()] *)
Definition py_strip (s : pystr) : pystr := rstrip (lstrip s).

(** [str.split()] with no separator: the maximal runs of non-space
    characters; [cur] is the run being read, reversed. *)
Fixpoint split_from (cur : pystr) (s : pystr) : list pystr :=
  match s with
  | [] => match cur with [] => [] | _ => [rev cur] end
  | c :: s' =>
      if py_isspace c
      then match cur with
           | [] => split_from [] s'
           | _ => rev cur :: split_from [] s'
           end
      else split_from (c :: cur) s'
  end.

Definition py_split (s : pystr) : list pystr := split_from [] s.

(** [sep.join(parts)] *)
Fixpoint py_join (sep : pystr) (parts : list pystr) : pystr :=
  match parts with
  | [] => []
  | [p] => p
  | p :: rest => p ++ sep ++ py_join sep rest
  end.

(** [c in s] for a one-character [c] *)
Definition py_in (c : N) (s : pystr) : bool := existsb (N.eqb c) s.

Definition pystr_eqb (a b : pystr) : bool := bool_decide (a = b).

(** [s.endswith(suffix)] *)
Definition py_endswith (s suffix : pystr) : bool :=
  pystr_eqb (skipn (length s - length suffix)%nat s) suffix
  && (length suffix <=? length s)%nat.

(** [len(s)] *)
Definition py_len (s : pystr) : Z := Z.of_nat (length s).

(** [s[:n]] for a non-negative [n] *)
Definition py_prefix (n : Z) (s : pystr) : pystr := firstn (Z.to_nat n) s.

(** ** Replies *)

(** The error bodies, one constructor per message of the source:
    [MissingFile] for the three "Aucun fichier ..." messages (no [file]
    part), [UnsupportedFormat] for "Le fichier doit etre un PDF." and
    "Format non pris en charge. Utilisez .csv ou .xlsx",
    [ExtractionFailed] for "Erreur lors de l'analyse du fichier.",
    [MalformedSpreadsheet] for "Erreur de lecture du fichier Excel. ...",
    [NormalizationFailed] for "Erreur de traitement Excel.",
    [ConverterFailed] for "Erreur lors de la compression Ghostscript.",
    [CompressionFailed] for "Erreur lors de la compression du PDF.",
    [PayloadTooLarge] for "Fichier trop lourd. Limite a 20 Mo.", and
    [InternalServerError] for the framework's own reply when the
    [before_request] hook raises. *)
Inductive error :=
| MissingFile
| UnsupportedFormat
| ExtractionFailed
| MalformedSpreadsheet
| NormalizationFailed
| ConverterFailed
| CompressionFailed
| PayloadTooLarge
| InternalServerError.

(** [{"text": ..., "partial": ..., "charCount": ...}] *)
Record extraction := { text : pystr; partial : bool; charCount : Z }.

(** The two advisory messages of [/pdf-compress]: "Compression inefficace.
    Essayez le mode 'moderate' ..." and "Compression inefficace : le fichier
    est plus lourd apres compression." *)
Inductive alert_message := TryModerate | HeavierAfter.

(** [{"url": ..., "originalSize": ..., "compressedSize": ..., "alert": ...,
    "gainPercent": ...}] *)
Record compression := {
  url : pystr;
  originalSize : Z;
  compressedSize : Z;
  alert : option alert_message;
  gainPercent : float
}.

(** What a route returns: a body with status 200, or an error body with its
    status. *)
Inductive reply :=
| ReplyExtract (r : extraction)
| ReplyCleaner (output : pystr)
| ReplyCompress (r : compression)
| ReplyError (code : Z) (e : error).

(** An uploaded file: the declared name and the bytes. *)
Record upload := { filename : pystr; content : list N }.

(** ** [/extract] *)

Definition MAX_CHARS : Z := 10000.

Section Extract.
Variable U : UnicodeData.
(** [fitz.open(stream=..., filetype="pdf")] followed by [page.get_text()]
    on each page, in document order; [None] when PyMuPDF raises. *)
Variable fitz_pages : list N -> option (list pystr).

(** The body of the [try] block once the pages are read. *)
Definition extract_text (pages : list pystr) : extraction :=
  let full_text := py_join [10] pages in
  let '(is_partial, full_text) :=
    if (MAX_CHARS <? py_len full_text)%Z
    then (true, py_prefix MAX_CHARS full_text)
    else (false, full_text) in
  {| text := full_text; partial := is_partial; charCount := py_len full_text |}.

Definition extract_pdf (file : option upload) : reply :=
  match file with
  | None => ReplyError 400 MissingFile
  | Some f =>
      if negb (py_endswith (py_lower U (filename f)) (py ".pdf"))
      then ReplyError 400 UnsupportedFormat
      else match fitz_pages (content f) with
           | Some pages => ReplyExtract (extract_text pages)
           | None => ReplyError 500 ExtractionFailed
           end
  end.
End Extract.

(** ** Regular expressions

    The two patterns of [clean_cell], as syntax over character classes.
    [re_lang] is what a pattern denotes; [re_fullmatch] decides it by
    derivatives, so it can be run. *)

Inductive re :=
| Void
| Eps
| Cls (p : N -> bool)
| Cat (r1 r2 : re)
| Alt (r1 r2 : re)
| Star (r : re).

(** [r+] *)
Definition Plus (r : re) : re := Cat r (Star r).

(** A literal character. *)
Definition Chr (c : N) : re := Cls (N.eqb c).

Inductive re_lang : re -> pystr -> Prop :=
| lang_eps : re_lang Eps []
| lang_cls p c : p c = true -> re_lang (Cls p) [c]
| lang_cat r1 r2 s1 s2 : re_lang r1 s1 -> re_lang r2 s2 -> re_lang (Cat r1 r2) (s1 ++ s2)
| lang_alt_l r1 r2 s : re_lang r1 s -> re_lang (Alt r1 r2) s
| lang_alt_r r1 r2 s : re_lang r2 s -> re_lang (Alt r1 r2) s
| lang_star_nil r : re_lang (Star r) []
| lang_star_cons r s1 s2 :
    re_lang r s1 -> re_lang (Star r) s2 -> re_lang (Star r) (s1 ++ s2).

Fixpoint nullable (r : re) : bool :=
  match r with
  | Void => false
  | Eps => true
  | Cls _ => false
  | Cat r1 r2 => nullable r1 && nullable r2
  | Alt r1 r2 => nullable r1 || nullable r2
  | Star _ => true
  end.

Fixpoint deriv (c : N) (r : re) : re :=
  match r with
  | Void => Void
  | Eps => Void
  | Cls p => if p c then Eps else Void
  | Cat r1 r2 =>
      if nullable r1
      then Alt (Cat (deriv c r1) r2) (deriv c r2)
      else Cat (deriv c r1) r2
  | Alt r1 r2 => Alt (deriv c r1) (deriv c r2)
  | Star r1 => Cat (deriv c r1) (Star r1)
  end.

Fixpoint re_fullmatch (r : re) (s : pystr) : bool :=
  match s with
  | [] => nullable r
  | c :: s' => re_fullmatch (deriv c r) s'
  end.

(** [s] without its last character when that is a line feed. *)
Definition chop_newline (s : pystr) : option pystr :=
  match rev s with
  | 10 :: t => Some (rev t)
  | _ => None
  end.

(** [re.match("^" r "$", s)] with no flags: [^] holds at the start, where
    [match] begins, and [$] holds at the end of the string and also just
    before a line feed that ends it. *)
Definition re_match_anchored (r : re) (s : pystr) : bool :=
  re_fullmatch r s
  || match chop_newline s with
     | Some s' => re_fullmatch r s'
     | None => false
     end.

(** ** [/excel-cleaner] *)

(** The three switches, each [request.form.get(name, "true") == "true"]. *)
Record options := {
  remove_duplicates : bool;
  clean_emails : bool;
  sanitize_characters : bool
}.

Definition form_flag (v : option pystr) : bool :=
  pystr_eqb (default (py "true") v) (py "true").

(** A cell as [applymap] hands it to [clean_cell]: [None] is a missing value
    ([pd.isna]), [Some s] a value whose [str()] is [s]. *)
Abbreviation cell := (option pystr).

Section Cleaner.
Variable U : UnicodeData.

(** The class [[\w@.\sÀ-ÿ-]] whose complement the first pattern removes:
    a word character, [@], [.], white space, a code point from U+00C0 to
    U+00FF, or [-]. *)
Definition sanitize_keeps (c : N) : bool :=
  re_word U c || (c =? 64) || (c =? 46) || py_isspace c
  || in_range 0xC0 0xFF c || (c =? 45).

(** [re.sub(r"[^\w@.\sÀ-ÿ-]", "", value)]: every character of the
    complement is replaced by nothing. *)
Definition sanitize (value : pystr) : pystr := List.filter sanitize_keeps value.

(** [[^@\s]] *)
Definition email_char (c : N) : bool := negb ((c =? 64) || py_isspace c).

(** [[^@\s]+@[^@\s]+\.[^@\s]+] *)
Definition email_re : re :=
  Cat (Plus (Cls email_char))
    (Cat (Chr 64)
       (Cat (Plus (Cls email_char))
          (Cat (Chr 46) (Plus (Cls email_char))))).

(** The value once stripped and, when asked, sanitized. *)
Definition prepared (opts : options) (raw : pystr) : pystr :=
  let value := py_strip raw in
  if sanitize_characters opts then sanitize value else value.

Definition clean_cell (opts : options) (value : cell) : cell :=
  match value with
  | None => None
  | Some raw =>
      let value := py_strip raw in
      let value := if sanitize_characters opts then sanitize value else value in
      if clean_emails opts && py_in 64 value
      then if negb (re_match_anchored email_re value)
           then None
           else Some (py_lower U value)
      else Some (py_join [32] (map (py_capitalize U) (py_split value)))
  end.
End Cleaner.

(** A row of the frame, and the frame's rows in order; the header is kept
    apart since [applymap] and [drop_duplicates] leave it alone. *)
Abbreviation row := (list cell).

(** [df.drop_duplicates()]: a row equal to one already kept is dropped, so
    the first of equal rows stays ([keep="first"]); missing values compare
    equal to each other. [seen] holds the rows kept so far. *)
Fixpoint drop_from (seen : list row) (rows : list row) : list row :=
  match rows with
  | [] => []
  | r :: rest =>
      if bool_decide (r ∈ seen) then drop_from seen rest
      else r :: drop_from (r :: seen) rest
  end.

Definition drop_duplicates (rows : list row) : list row := drop_from [] rows.

(** [df.applymap(clean_cell)] followed by the optional [drop_duplicates]. *)
Definition clean_rows (U : UnicodeData) (opts : options) (rows : list row) : list row :=
  let df := map (map (clean_cell U opts)) rows in
  if remove_duplicates opts then drop_duplicates df else df.

(** A parsed table: the header line and the rows. *)
Record frame := { header : list pystr; rows : list row }.

(** [request.form]: the text fields of the multipart body. *)
Abbreviation form := (gmap pystr pystr).

Section ExcelCleaner.
Variable U : UnicodeData.
(** [pd.read_csv(file, on_bad_lines='skip')] and [pd.read_excel(file,
    engine='openpyxl')]; [None] when pandas raises. *)
Variable read_csv : list N -> option frame.
Variable read_excel : list N -> option frame.
(** [df.to_csv(index=False)] *)
Variable to_csv : frame -> pystr.

Definition read_options (f : form) : options :=
  {| remove_duplicates := form_flag (f !! py "removeDuplicates");
     clean_emails := form_flag (f !! py "cleanEmails");
     sanitize_characters := form_flag (f !! py "sanitizeCharacters") |}.

(** The rest of the [try] block once the frame is read. *)
Definition clean_frame (opts : options) (df : frame) : reply :=
  ReplyCleaner
    (to_csv {| header := header df; rows := clean_rows U opts (rows df) |}).

Definition excel_cleaner (file : option upload) (f : form) : reply :=
  match file with
  | None => ReplyError 400 MissingFile
  | Some up =>
      let filename := py_lower U (filename up) in
      let opts := read_options f in
      if py_endswith filename (py ".csv")
      then match read_csv (content up) with
           | Some df => clean_frame opts df
           | None => ReplyError 500 NormalizationFailed
           end
      else if py_endswith filename (py ".xlsx")
      then match read_excel (content up) with
           | Some df => clean_frame opts df
           | None => ReplyError 400 MalformedSpreadsheet
           end
      else ReplyError 400 UnsupportedFormat
  end.
End ExcelCleaner.

(** ** Python [float]

    [int / int] is the quotient correctly rounded to a double, and
    [round(x, n)] rounds the exact value of [x] to [n] decimals, ties to
    even, and takes the double nearest to that decimal. Both are written
    with integer arithmetic on Rocq's binary64 floats. *)

Local Open Scope Z_scope.

(** [p / q] rounded to an integer, ties to even ([q] positive). *)
Definition round_half_even (p q : Z) : Z :=
  let m := p / q in
  let r := p mod q in
  if (q <? 2 * r) || ((2 * r =? q) && Z.odd m) then m + 1 else m.

(** The double nearest to [p / q] for [p >= 0] and [q > 0]: the quotient is
    scaled by [2 ^ e] into 53 bits, rounded there and scaled back. *)
Definition nearest_double (p q : Z) : float :=
  if (p <=? 0) || (q <=? 0) then 0%float else
  let e0 := Z.log2 p - Z.log2 q - 53 in
  let scaled (e : Z) := if 0 <=? e then (p, q * 2 ^ e) else (p * 2 ^ (- e), q) in
  let e := let '(a, b) := scaled (e0 + 1) in if 2 ^ 52 <=? a / b then e0 + 1 else e0 in
  let '(a, b) := scaled e in
  Z.ldexp (PrimFloat.of_uint63 (Uint63.of_Z (round_half_even a b))) e.

(** [a / b] on non-negative integers; [None] is [ZeroDivisionError]. *)
Definition py_truediv (a b : Z) : option float :=
  if b =? 0 then None else Some (nearest_double a b).

(** [round(x, ndigits)] for a non-negative [ndigits]. *)
Definition py_round (x : float) (ndigits : Z) : float :=
  match Prim2SF x with
  | S754_finite s m e =>
      let '(p, q) :=
        if 0 <=? e then (Zpos m * 2 ^ e * 10 ^ ndigits, 1)
        else (Zpos m * 10 ^ ndigits, 2 ^ (- e)) in
      let r := nearest_double (round_half_even p q) (10 ^ ndigits) in
      if s then (- r)%float else r
  | _ => x
  end.

(** [round(100 * (1 - compressed_size / original_size), 2)] *)
Definition gain_percent (original_size compressed_size : Z) : option float :=
  q ← py_truediv compressed_size original_size;
  Some (py_round (100 * (1 - q))%float 2).

(** ** The scratch directory *)

(** An entry of [static]: a regular file with its modification time, its
    size and whether [os.remove] on it succeeds, or a sub-directory. *)
Inductive entry :=
| File (mtime : Z) (size : Z) (removable : bool)
| Dir.

(** What a request does outside the process. *)
Inductive effect :=
| FsMkdir (path : pystr)
| FsWrite (path : pystr)
| FsDelete (path : pystr)
| Subprocess (command : list pystr)
| LogAppend (mode : pystr) (gain : float) (original_size compressed_size : Z).

(** The world a request runs in: [static], when it exists, as a map from
    file names to entries, and the effects performed so far, latest first. *)
Record world := {
  static : option (gmap pystr entry);
  effects : list effect
}.

Definition static_path (name : pystr) : pystr := py "static/" ++ name.

Definition perform (e : effect) (w : world) : world :=
  {| static := static w; effects := e :: effects w |}.

Definition set_static (d : gmap pystr entry) (w : world) : world :=
  {| static := Some d; effects := effects w |}.

(** The names [cleanup_old_files] removes: regular files last modified
    before the cutoff on which [os.remove] succeeds. *)
Definition stale (cutoff : Z) (e : entry) : bool :=
  match e with
  | File mtime _ removable => (mtime <? cutoff) && removable
  | Dir => false
  end.

(** The [before_request] hook; [None] when [os.listdir] raises because
    [static] is missing. *)
Definition cleanup_old_files (now : Z) (w : world) : option world :=
  d ← static w;
  let cutoff := now - 24 * 3600 in
  let old := filter (fun kv => stale cutoff kv.2 = true) (map_to_list d) in
  Some {| static := Some (foldr (fun kv m => delete kv.1 m) d old);
          effects := rev (map (fun kv => FsDelete (static_path kv.1)) old) ++ effects w |}.

(** ** [/pdf-compress] *)

(** What one run of Ghostscript did: its exit status, and the size of the
    file it left at [-sOutputFile], if any. *)
Record gs_result := { exited_zero : bool; produced : option Z }.

(** What a request draws from its surroundings: [clock], the [time.time()]
    its [before_request] hook reads; [saved_at] and [converted_at], the
    modification times the file system gives to the upload that
    [file.save] writes and to the file Ghostscript writes, both later in
    the request than the hook; the two [uuid.uuid4().hex] values in the
    order they are drawn; and whether [platform.system()] is ["Darwin"]. *)
Record environment := {
  clock : Z;
  saved_at : Z;
  converted_at : Z;
  uuid_input : pystr;
  uuid_output : pystr;
  darwin : bool
}.

Definition gs_quality_map : gmap pystr pystr :=
  {[ py "lossless" := py "/prepress";
     py "moderate" := py "/ebook";
     py "extreme" := py "/screen" ]}.

(** [gs_quality_map.get(mode, "/ebook")] *)
Definition gs_quality (mode : pystr) : pystr :=
  default (py "/ebook") (gs_quality_map !! mode).

(** The argument list handed to [subprocess.run]; a missing or empty
    [resolution] adds nothing. *)
Definition gs_command (env : environment) (mode : pystr) (resolution : option pystr)
    (output_path temp_input : pystr) : list pystr :=
  [ if darwin env then py "/opt/homebrew/bin/gs" else py "gs";
    py "-sDEVICE=pdfwrite";
    py "-dCompatibilityLevel=1.4";
    py "-dPDFSETTINGS=" ++ gs_quality mode;
    py "-dNOPAUSE";
    py "-dQUIET";
    py "-dBATCH";
    py "-sOutputFile=" ++ output_path;
    temp_input ]
  ++ match resolution with
     | Some (c :: r) => [py "-r" ++ c :: r]
     | _ => []
     end.

Definition alert_for (mode : pystr) (original_size compressed_size : Z) : option alert_message :=
  if original_size <=? compressed_size
  then Some (if pystr_eqb mode (py "lossless") then TryModerate else HeavierAfter)
  else None.

Section Compress.
Variable U : UnicodeData.
(** [os.path.splitext(secure_filename(name))[0]] *)
Variable secure_basename : pystr -> pystr.
(** Ghostscript, run on a command over the directory as it stands. *)
Variable ghostscript : list pystr -> gmap pystr entry -> gs_result.
Variable env : environment.

(** The [try] block of [pdf_compress]; each [(w, ReplyError 500 _)] is one
    of its two [except] clauses. Names drawn from [uuid4] are taken not
    to name a directory. *)
Definition compress_file (up : upload) (f : form) (w : world) : world * reply :=
  let basename := secure_basename (filename up) in
  let mode := default (py "lossless") (f !! py "mode") in
  (* os.makedirs("static", exist_ok=True) *)
  let '(d, w) :=
    match static w with
    | Some d => (d, w)
    | None => (∅, perform (FsMkdir (py "static")) (set_static ∅ w))
    end in
  (* file.save(temp_input); os.path.getsize(temp_input) *)
  let input_name := basename ++ py "_input_" ++ uuid_input env ++ py ".pdf" in
  let temp_input := static_path input_name in
  let original_size := py_len (content up) in
  let d := <[input_name := File (saved_at env) original_size true]> d in
  let w := perform (FsWrite temp_input) (set_static d w) in
  let filename := basename ++ py "_compressed_" ++ uuid_output env ++ py ".pdf" in
  let output_path := static_path filename in
  let command := gs_command env mode (f !! py "resolution") output_path temp_input in
  (* subprocess.run(command, check=True) *)
  let result := ghostscript command d in
  let d :=
    match produced result with
    | Some size => <[filename := File (converted_at env) size true]> d
    | None => d
    end in
  let w := perform (Subprocess command) (set_static d w) in
  if negb (exited_zero result) then (w, ReplyError 500 ConverterFailed)
  else
    match d !! filename with
    | Some (File _ compressed_size _) =>
        (* os.remove(temp_input) *)
        match d !! input_name with
        | Some (File _ _ true) =>
            let w := perform (FsDelete temp_input) (set_static (delete input_name d) w) in
            match gain_percent original_size compressed_size with
            | Some gain =>
                let alert_message := alert_for mode original_size compressed_size in
                let w := perform (LogAppend mode gain original_size compressed_size) w in
                (w, ReplyCompress
                      {| url := py "http://localhost:8000/static/" ++ filename;
                         originalSize := original_size;
                         compressedSize := compressed_size;
                         alert := alert_message;
                         gainPercent := gain |})
            | None => (w, ReplyError 500 CompressionFailed)
            end
        | _ => (w, ReplyError 500 CompressionFailed)
        end
    | _ => (w, ReplyError 500 CompressionFailed)
    end.

Definition pdf_compress (file : option upload) (f : form) (w : world) : world * reply :=
  match file with
  | None => (w, ReplyError 400 MissingFile)
  | Some up =>
      if negb (py_endswith (py_lower U (filename up)) (py ".pdf"))
      then (w, ReplyError 400 UnsupportedFormat)
      else compress_file up f w
  end.
End Compress.

(** ** A request, from the hook to the reply *)

(** The library functions the routes call. *)
Record libraries := {
  fitz_pages : list N -> option (list pystr);
  read_csv : list N -> option frame;
  read_excel : list N -> option frame;
  to_csv : frame -> pystr;
  secure_basename : pystr -> pystr;
  ghostscript : list pystr -> gmap pystr entry -> gs_result
}.

Inductive request :=
| PostExtract (file : option upload)
| PostExcelCleaner (file : option upload) (f : form)
| PostPdfCompress (file : option upload) (f : form).

(** The route alone, without the hook. *)
Definition route (U : UnicodeData) (L : libraries) (env : environment)
    (r : request) (w : world) : world * reply :=
  match r with
  | PostExtract file => (w, extract_pdf U (fitz_pages L) file)
  | PostExcelCleaner file f =>
      (w, excel_cleaner U (read_csv L) (read_excel L) (to_csv L) file f)
  | PostPdfCompress file f =>
      pdf_compress U (secure_basename L) (ghostscript L) env file f w
  end.

(** [app.config['MAX_CONTENT_LENGTH']] *)
Definition MAX_CONTENT_LENGTH : Z := 20 * 1024 * 1024.

(** [@app.errorhandler(RequestEntityTooLarge)] *)
Definition handle_file_too_large : reply := ReplyError 413 PayloadTooLarge.

(** [cleanup_old_files] runs first; when it raises the route is not entered
    and the framework answers 500. Each route starts by reading
    [request.files], where the framework raises [RequestEntityTooLarge]
    for a body whose declared length [content_length] is above
    [MAX_CONTENT_LENGTH]; the handler above answers it. *)
Definition serve (U : UnicodeData) (L : libraries) (env : environment)
    (content_length : Z) (r : request) (w : world) : world * reply :=
  match cleanup_old_files (clock env) w with
  | Some w' =>
      if MAX_CONTENT_LENGTH <? content_length then (w', handle_file_too_large)
      else route U L env r w'
  | None => (w, ReplyError 500 InternalServerError)
  end.

(** The file a request carries. *)
Definition request_file (r : request) : option upload :=
  match r with
  | PostExtract file | PostExcelCleaner file _ | PostPdfCompress file _ => file
  end.

(** A database with nothing above ASCII: no alphanumerics there, and case
    mappings that leave every code point as it is. Used to run the program
    on concrete inputs. *)
Definition ucd_plain : UnicodeData :=
  {| ucd_isalnum := fun _ => false;
     ucd_tolower := fun s i => match s !! i with Some c => [c] | None => [] end;
     ucd_totitle := fun c => [c] |}.

(** Row [i] stays exactly when it does not occur among rows [0 .. i-1]: the
    de-duplication as the words "the first occurrence is kept, later exact
    duplicates are dropped, the order is preserved" put it. *)
Definition first_occurrences (l : list row) : list row :=
  omap id (imap (fun i r => if bool_decide (r ∈ take i l) then None else Some r) l).

(** The characters the specification says sanitizing keeps: alphanumerics,
    accented Latin letters (the letters of U+00C0 to U+00FF, which leaves
    out the signs U+00D7 and U+00F7), white space, [@], [.] and [-]. *)
Definition accented_latin_letter (c : N) : bool :=
  (in_range 0xC0 0xFF c && negb (c =? 0xD7) && negb (c =? 0xF7))%N.

Definition spec_keeps (U : UnicodeData) (c : N) : bool :=
  (py_isalnum U c || accented_latin_letter c || py_isspace c
   || (c =? 64) || (c =? 46) || (c =? 45))%N.

Definition spec_sanitize (U : UnicodeData) (value : pystr) : pystr :=
  List.filter (spec_keeps U) value.

(** The shape [local@domain.tld] in the specification's words: three
    non-empty parts around one [@] and a [.] after it, none of them holding
    an [@] or white space. *)
Definition email_shape (v : pystr) : Prop :=
  exists l d t : pystr,
    v = l ++ [64%N] ++ d ++ [46%N] ++ t
    /\ l <> [] /\ d <> [] /\ t <> []
    /\ Forall (fun c => email_char c = true) (l ++ d ++ t).

(** All three switches on, as when the form leaves them out. *)
Definition default_options : options :=
  {| remove_duplicates := true; clean_emails := true; sanitize_characters := true |}.

(** Whether a route takes a file of that name: [.pdf] for [/extract] and
    [/pdf-compress], [.csv] or [.xlsx] for [/excel-cleaner], on the
    lower-cased name. *)
Definition accepts_extension (U : UnicodeData) (r : request) (name : pystr) : bool :=
  let name := py_lower U name in
  match r with
  | PostExtract _ | PostPdfCompress _ _ => py_endswith name (py ".pdf")
  | PostExcelCleaner _ _ => py_endswith name (py ".csv") || py_endswith name (py ".xlsx")
  end.

(** The names of the two artifacts of a [/pdf-compress] request. *)
Definition input_name (sb : pystr -> pystr) (env : environment) (up : upload) : pystr :=
  sb (filename up) ++ py "_input_" ++ uuid_input env ++ py ".pdf".

Definition output_name (sb : pystr -> pystr) (env : environment) (up : upload) : pystr :=
  sb (filename up) ++ py "_compressed_" ++ uuid_output env ++ py ".pdf".

(** Libraries to run the program with: parsers that raise, a file name
    that loses its four-character extension, and a Ghostscript that either exits with a non-zero
    status and leaves nothing, or exits with zero and leaves [size] bytes. *)
Definition gs_fails : list pystr -> gmap pystr entry -> gs_result :=
  fun _ _ => {| exited_zero := false; produced := None |}.

Definition gs_writes (size : Z) : list pystr -> gmap pystr entry -> gs_result :=
  fun _ _ => {| exited_zero := true; produced := Some size |}.

Definition libraries_with (gs : list pystr -> gmap pystr entry -> gs_result) : libraries :=
  {| fitz_pages := fun _ => None;
     read_csv := fun _ => None;
     read_excel := fun _ => None;
     to_csv := fun _ => [];
     secure_basename := fun name => take (length name - 4) name;
     ghostscript := gs |}.

(** A request whose hook runs at time 100000, whose upload is saved at
    100001 and converted at 100002, with the unique names [u1] and [u2]. *)
Definition env_example : environment :=
  {| clock := 100000; saved_at := 100001; converted_at := 100002;
     uuid_input := py "u1"; uuid_output := py "u2"; darwin := false |}.

(** A world whose [static] holds one removable file last modified at time
    0, more than a day before [env_example]. *)
Definition world_with_old_file : world :=
  {| static := Some {[ py "old.pdf" := File 0 10 true ]}; effects := [] |}.

Definition world_empty : world := {| static := Some ∅; effects := [] |}.

(** A token as [str.split] returns them: not empty, without white space. *)
Definition is_token (w : pystr) : Prop :=
  w <> [] /\ Forall (fun c => py_isspace c = false) w.

(** Text within ASCII. *)
Definition is_ascii (s : pystr) : Prop := Forall (fun c => (c < 128)%N) s.

(** A property of characters that case changes within ASCII respect. *)
Definition case_stable (P : N -> Prop) : Prop :=
  forall c, P c -> P (ascii_lower c) /\ P (ascii_upper c).

(** The pieces of a [/pdf-compress] request, named: the mode in force, the
    command run, [static] once the upload is saved, and [static] once
    Ghostscript has run. *)
Definition compress_mode (f : form) : pystr := default (py "lossless") (f !! py "mode").

Definition compress_command (sb : pystr -> pystr) (env : environment) (up : upload)
    (f : form) : list pystr :=
  gs_command env (compress_mode f) (f !! py "resolution")
    (static_path (output_name sb env up)) (static_path (input_name sb env up)).

Definition with_input (sb : pystr -> pystr) (env : environment) (up : upload)
    (d : gmap pystr entry) : gmap pystr entry :=
  <[input_name sb env up := File (saved_at env) (py_len (content up)) true]> d.

Definition after_gs (sb : pystr -> pystr)
    (gs : list pystr -> gmap pystr entry -> gs_result) (env : environment)
    (up : upload) (f : form) (d : gmap pystr entry) : gmap pystr entry :=
  match produced (gs (compress_command sb env up f) (with_input sb env up d)) with
  | Some size => <[output_name sb env up := File (converted_at env) size true]> (with_input sb env up d)
  | None => with_input sb env up d
  end.

(** * Properties *)

(** ** [/extract] *)

Lemma py_len_prefix n s :
  0 <= n <= py_len s -> py_len (py_prefix n s) = n.
Proof.
  unfold py_len, py_prefix. intros H.
  rewrite length_firstn. lia.
Qed.

(** C1: a PDF that [/extract] accepts is answered with the joined page text:
    whole, with [partial = false], when it has at most 10,000 characters;
    cut to exactly its first 10,000 characters, with [partial = true] and
    [charCount = 10,000], when it has more; and [charCount] is the length of
    [text] either way. *)
Theorem extract_pdf_bounded U fitz (up : upload) (pages : list pystr) :
  py_endswith (py_lower U (filename up)) (py ".pdf") = true ->
  fitz (content up) = Some pages ->
  exists r, extract_pdf U fitz (Some up) = ReplyExtract r
    /\ charCount r = py_len (text r)
    /\ let full := py_join [10%N] pages in
       (py_len full <= 10000 ->
          partial r = false /\ text r = full /\ charCount r = py_len full)
       /\ (10000 < py_len full ->
          partial r = true /\ text r = py_prefix 10000 full
          /\ py_len (text r) = 10000 /\ charCount r = 10000).
Proof.
  intros Hext Hfitz. unfold extract_pdf. rewrite Hext, Hfitz. simpl.
  eexists. split; [reflexivity|]. unfold extract_text, MAX_CHARS.
  destruct (10000 <? py_len (py_join [10%N] pages)) eqn:E; simpl.
  - apply Z.ltb_lt in E. split; [reflexivity|]. split; [lia|]. intros _.
    rewrite py_len_prefix by lia. auto.
  - apply Z.ltb_ge in E. split; [reflexivity|]. split; [auto|lia].
Qed.

Lemma extract_pdf_bounded_witness :
  exists r, extract_pdf ucd_plain (fun _ => Some [py "ab"; py "c"])
              (Some {| filename := py "A.PDF"; content := [] |}) = ReplyExtract r
    /\ charCount r = 4 /\ text r = py "ab" ++ [10%N] ++ py "c" /\ partial r = false.
Proof.
  destruct (extract_pdf_bounded ucd_plain (fun _ => Some [py "ab"; py "c"])
              {| filename := py "A.PDF"; content := [] |} [py "ab"; py "c"])
    as (r & Hr & Hc & Hle & _); [reflexivity | reflexivity |].
  exists r. destruct Hle as (Hp & Ht & Hn); [vm_compute; discriminate |].
  repeat split; assumption.
Defined.

(** ** De-duplication *)

Lemma drop_from_first_occurrences (pre rows seen : list row) :
  (forall r, r ∈ seen <-> r ∈ pre) ->
  drop_from seen rows =
  omap id (imap (fun i r =>
                   if bool_decide (r ∈ take (length pre + i) (pre ++ rows))
                   then None else Some r) rows).
Proof.
  revert pre seen. induction rows as [|r rest IH]; intros pre seen Hseen; [reflexivity|].
  cbn [drop_from imap omap].
  replace (length pre + 0)%nat with (length pre) by lia.
  rewrite take_app_length.
  assert (Hshift : forall l : list row,
    imap ((fun i r0 => if bool_decide (r0 ∈ take (length pre + i) (pre ++ r :: rest))
                       then None else Some r0) ∘ S) l =
    imap (fun i r0 => if bool_decide (r0 ∈ take (length (pre ++ [r]) + i) ((pre ++ [r]) ++ rest))
                      then None else Some r0) l).
  { intros l. apply imap_ext. intros i x _. simpl.
    rewrite length_app. simpl. rewrite <- (assoc_L (++)). simpl.
    replace (length pre + 1 + i)%nat with (length pre + S i)%nat by lia. reflexivity. }
  rewrite Hshift.
  destruct (bool_decide (r ∈ seen)) eqn:E.
  - apply bool_decide_eq_true in E.
    rewrite (bool_decide_eq_true_2 (r ∈ pre)) by (apply Hseen; exact E).
    simpl. apply IH. intros x. rewrite Hseen. rewrite elem_of_app, list_elem_of_singleton.
    split; [auto|]. intros [?| ->]; [assumption | apply Hseen; exact E].
  - apply bool_decide_eq_false in E.
    rewrite (bool_decide_eq_false_2 (r ∈ pre)) by (rewrite <- Hseen; exact E).
    simpl. f_equal. apply IH. intros x.
    rewrite elem_of_cons, elem_of_app, list_elem_of_singleton, Hseen. tauto.
Qed.

Lemma drop_duplicates_first_occurrences (l : list row) :
  drop_duplicates l = first_occurrences l.
Proof.
  unfold drop_duplicates, first_occurrences.
  rewrite (drop_from_first_occurrences [] l []) by reflexivity. reflexivity.
Qed.

Lemma drop_from_sublist (seen rows : list row) : drop_from seen rows `sublist_of` rows.
Proof.
  revert seen. induction rows as [|r rest IH]; intros seen; simpl; [constructor|].
  destruct (bool_decide (r ∈ seen)); [apply sublist_cons | apply sublist_skip]; apply IH.
Qed.

Lemma drop_from_elem (seen rows : list row) (r : row) :
  r ∈ drop_from seen rows <-> r ∈ rows /\ r ∉ seen.
Proof.
  revert seen. induction rows as [|x rest IH]; intros seen; simpl.
  - rewrite elem_of_nil. tauto.
  - destruct (bool_decide (x ∈ seen)) eqn:E.
    + apply bool_decide_eq_true in E. rewrite IH, elem_of_cons.
      split; [tauto|]. intros [[->|?] ?]; tauto.
    + apply bool_decide_eq_false in E.
      rewrite !elem_of_cons, IH, elem_of_cons.
      destruct (decide (r = x)) as [->|]; tauto.
Qed.

Lemma drop_from_NoDup (seen rows : list row) : NoDup (drop_from seen rows).
Proof.
  revert seen. induction rows as [|x rest IH]; intros seen; simpl; [constructor|].
  destruct (bool_decide (x ∈ seen)); [apply IH|].
  constructor; [|apply IH]. rewrite drop_from_elem, elem_of_cons. tauto.
Qed.

(** C7: with [removeDuplicates] on, the rows returned are the cleaned rows
    in which row [i] is kept exactly when no earlier cleaned row equals it;
    so they are a subsequence of the cleaned rows (order preserved), without
    repetition, and every cleaned row still occurs; cleaned rows [A, B, A]
    give [A, B]. *)
Theorem clean_rows_keeps_first_occurrences U (opts : options) (table : list row) :
  remove_duplicates opts = true ->
  let cleaned := map (map (clean_cell U opts)) table in
  let out := clean_rows U opts table in
  out = first_occurrences cleaned
  /\ out `sublist_of` cleaned
  /\ NoDup out
  /\ (forall r, r ∈ cleaned -> r ∈ out)
  /\ (forall A B : row, A <> B -> drop_duplicates [A; B; A] = [A; B]).
Proof.
  intros Hopt cleaned out. unfold out, clean_rows. rewrite Hopt. fold cleaned.
  split; [apply drop_duplicates_first_occurrences|].
  split; [apply drop_from_sublist|].
  split; [apply drop_from_NoDup|].
  split.
  - intros r Hr. apply drop_from_elem. split; [exact Hr | apply not_elem_of_nil].
  - intros A B HAB. unfold drop_duplicates. cbn [drop_from].
    rewrite (bool_decide_eq_false_2 (A ∈ [])) by apply not_elem_of_nil.
    rewrite (bool_decide_eq_false_2 (B ∈ [A])).
    2:{ rewrite list_elem_of_singleton. congruence. }
    rewrite (bool_decide_eq_true_2 (A ∈ [B; A])); [reflexivity|].
    apply elem_of_cons. right. apply list_elem_of_singleton. reflexivity.
Qed.

Lemma clean_rows_keeps_first_occurrences_witness :
  clean_rows ucd_plain
    {| remove_duplicates := true; clean_emails := true; sanitize_characters := true |}
    [[Some (py " ann ")]; [Some (py "bob")]; [Some (py "Ann")]]
  = [[Some (py "Ann")]; [Some (py "Bob")]].
Proof.
  pose proof (clean_rows_keeps_first_occurrences ucd_plain
    {| remove_duplicates := true; clean_emails := true; sanitize_characters := true |}
    [[Some (py " ann ")]; [Some (py "bob")]; [Some (py "Ann")]] eq_refl) as H.
  cbv zeta in H. destruct H as (H & _). rewrite H. vm_compute. reflexivity.
Defined.

(** ** The quality profile *)

Lemma gs_quality_unknown (mode : pystr) :
  mode <> py "lossless" -> mode <> py "moderate" -> mode <> py "extreme" ->
  gs_quality mode = py "/ebook".
Proof.
  intros H1 H2 H3. unfold gs_quality, gs_quality_map.
  rewrite !lookup_insert_ne by congruence.
  rewrite lookup_singleton_ne by congruence. reflexivity.
Qed.

Lemma gs_quality_known :
  gs_quality (py "lossless") = py "/prepress"
  /\ gs_quality (py "moderate") = py "/ebook"
  /\ gs_quality (py "extreme") = py "/screen".
Proof. repeat split; vm_compute; reflexivity. Qed.

Lemma alert_for_not_lossless (m1 m2 : pystr) o c :
  m1 <> py "lossless" -> m2 <> py "lossless" -> alert_for m1 o c = alert_for m2 o c.
Proof.
  intros H1 H2. unfold alert_for, pystr_eqb.
  rewrite !bool_decide_eq_false_2 by assumption. reflexivity.
Qed.

(** The reply of [/pdf-compress] depends on [mode] only through the profile
    it maps to and through whether it is ["lossless"]. *)
Lemma pdf_compress_reply_mode (U : UnicodeData) (sb : pystr -> pystr)
    (gs : list pystr -> gmap pystr entry -> gs_result) (env : environment)
    (file : option upload) (f : form) (w : world) (m1 m2 : pystr) :
  gs_quality m1 = gs_quality m2 ->
  m1 <> py "lossless" -> m2 <> py "lossless" ->
  (pdf_compress U sb gs env file (<[py "mode" := m1]> f) w).2
  = (pdf_compress U sb gs env file (<[py "mode" := m2]> f) w).2.
Proof.
  intros Hq H1 H2. unfold pdf_compress.
  destruct file as [up|]; [|reflexivity].
  destruct (negb _); [reflexivity|].
  unfold compress_file. rewrite !lookup_insert_eq.
  rewrite !(lookup_insert_ne _ (py "mode") (py "resolution")) by (vm_compute; discriminate).
  cbv zeta. cbn [default from_option]. cbv [id]. unfold gs_command. rewrite Hq.
  destruct (static w);
    repeat (match goal with |- context [match ?x with _ => _ end] => destruct x end;
            try reflexivity);
    cbn [snd]; rewrite (alert_for_not_lossless m1 m2) by assumption; reflexivity.
Qed.

Ltac in_new_effects H :=
  repeat (apply elem_of_cons in H as [H|H];
          [try discriminate H; try (injection H; intros; subst; auto; fail)|]);
  try (apply elem_of_nil in H; contradiction).

(** The command of a [/pdf-compress] request that gets past its checks:
    its fourth argument carries the profile of the mode in force, and the
    request runs it, whatever follows, and runs nothing else. *)
Lemma compress_command_profile (sb : pystr -> pystr) (env : environment) (up : upload)
    (f : form) :
  compress_command sb env up f !! 3%nat
  = Some (py "-dPDFSETTINGS=" ++ gs_quality (compress_mode f)).
Proof. reflexivity. Qed.

Lemma compress_file_runs (sb : pystr -> pystr)
    (gs : list pystr -> gmap pystr entry -> gs_result) (env : environment)
    (up : upload) (f : form) (w : world) :
  Subprocess (compress_command sb env up f) ∈ effects (compress_file sb gs env up f w).1
  /\ (forall c, Subprocess c ∈ effects (compress_file sb gs env up f w).1 ->
         c = compress_command sb env up f \/ Subprocess c ∈ effects w).
Proof.
  unfold compress_file. cbv zeta.
  fold (input_name sb env up) (output_name sb env up) (compress_mode f).
  fold (compress_command sb env up f).
  destruct (static w);
    repeat match goal with
           | |- context [match ?x with _ => _ end] => destruct x
           | |- context [if ?x then _ else _] => destruct x
           end;
    cbn [fst perform set_static effects static];
    (split; [repeat (first [apply list_elem_of_here | apply list_elem_of_further])
            | intros c Hc; in_new_effects Hc; right; exact Hc]).
Qed.

Lemma pdf_compress_runs (U : UnicodeData) (sb : pystr -> pystr)
    (gs : list pystr -> gmap pystr entry -> gs_result) (env : environment)
    (up : upload) (f : form) (w : world) :
  py_endswith (py_lower U (filename up)) (py ".pdf") = true ->
  Subprocess (compress_command sb env up f)
    ∈ effects (pdf_compress U sb gs env (Some up) f w).1
  /\ (forall c, Subprocess c ∈ effects (pdf_compress U sb gs env (Some up) f w).1 ->
         c = compress_command sb env up f \/ Subprocess c ∈ effects w).
Proof.
  intros Hext. unfold pdf_compress. rewrite Hext. cbn [negb].
  apply compress_file_runs.
Qed.

(** C8: a request without [mode] is served as one with [mode = lossless],
    whose profile is [/prepress]: the command an accepted upload makes the
    request run carries [-dPDFSETTINGS=/prepress]. A [mode] other than
    [lossless], [moderate] and [extreme] gets the profile of [moderate],
    [/ebook]: the command run carries [-dPDFSETTINGS=/ebook] and is the
    command [moderate] would run, no other command is run, and the reply is
    the one [moderate] gets, so the unknown value by itself brings no
    error. *)
Theorem pdf_compress_mode_profile (U : UnicodeData) (sb : pystr -> pystr)
    (gs : list pystr -> gmap pystr entry -> gs_result) (env : environment)
    (file : option upload) (up : upload) (f : form) (w : world) (m : pystr)
    (resolution : option pystr) (output_path temp_input : pystr) :
  (f !! py "mode" = None ->
     gs_quality (default (py "lossless") (f !! py "mode")) = py "/prepress"
     /\ pdf_compress U sb gs env file f w
        = pdf_compress U sb gs env file (<[py "mode" := py "lossless"]> f) w
     /\ (py_endswith (py_lower U (filename up)) (py ".pdf") = true ->
        let command := compress_command sb env up f in
        let w' := (pdf_compress U sb gs env (Some up) f w).1 in
        command !! 3%nat = Some (py "-dPDFSETTINGS=/prepress")
        /\ Subprocess command ∈ effects w'
        /\ (forall c, Subprocess c ∈ effects w' -> c = command \/ Subprocess c ∈ effects w)))
  /\ (m <> py "lossless" -> m <> py "moderate" -> m <> py "extreme" ->
     gs_quality m = py "/ebook"
     /\ gs_quality m = gs_quality (py "moderate")
     /\ gs_command env m resolution output_path temp_input
        = gs_command env (py "moderate") resolution output_path temp_input
     /\ (pdf_compress U sb gs env file (<[py "mode" := m]> f) w).2
        = (pdf_compress U sb gs env file (<[py "mode" := py "moderate"]> f) w).2
     /\ (py_endswith (py_lower U (filename up)) (py ".pdf") = true ->
        let command := compress_command sb env up (<[py "mode" := m]> f) in
        let w' := (pdf_compress U sb gs env (Some up) (<[py "mode" := m]> f) w).1 in
        command !! 3%nat = Some (py "-dPDFSETTINGS=/ebook")
        /\ command = compress_command sb env up (<[py "mode" := py "moderate"]> f)
        /\ Subprocess command ∈ effects w'
        /\ (forall c, Subprocess c ∈ effects w' -> c = command \/ Subprocess c ∈ effects w))).
Proof.
  split.
  - intros Hnone. rewrite Hnone. split; [vm_compute; reflexivity|]. split.
    + unfold pdf_compress. destruct file as [u|]; [|reflexivity].
      destruct (negb _); [reflexivity|].
      unfold compress_file. rewrite Hnone, lookup_insert_eq.
      rewrite (lookup_insert_ne _ (py "mode") (py "resolution")) by (vm_compute; discriminate).
      reflexivity.
    + intros Hext. cbv zeta. split; [|apply pdf_compress_runs; exact Hext].
      rewrite compress_command_profile. unfold compress_mode. rewrite Hnone.
      vm_compute. reflexivity.
  - intros H1 H2 H3.
    assert (Hq : gs_quality m = gs_quality (py "moderate")).
    { rewrite gs_quality_unknown by assumption. vm_compute. reflexivity. }
    split; [apply gs_quality_unknown; assumption|].
    split; [exact Hq|].
    split; [unfold gs_command; rewrite Hq; reflexivity|].
    split; [apply pdf_compress_reply_mode; [exact Hq | exact H1 | vm_compute; discriminate]|].
    intros Hext. cbv zeta.
    split; [|split; [|apply pdf_compress_runs; exact Hext]].
    + rewrite compress_command_profile. unfold compress_mode. rewrite lookup_insert_eq.
      cbn [default from_option]. cbv [id]. rewrite gs_quality_unknown by assumption.
      reflexivity.
    + unfold compress_command, compress_mode, gs_command. rewrite !lookup_insert_eq.
      rewrite !(lookup_insert_ne _ (py "mode") (py "resolution")) by (vm_compute; discriminate).
      cbn [default from_option]. cbv [id]. rewrite Hq. reflexivity.
Qed.

(** ** Cell cleaning *)

Lemma prepared_sanitized U (opts : options) (raw : pystr) :
  prepared U opts raw
  = if sanitize_characters opts then sanitize U (py_strip raw) else py_strip raw.
Proof. reflexivity. Qed.

Lemma sanitize_keeps_iff U (c : N) :
  sanitize_keeps U c = true <->
  (py_isalnum U c = true \/ c = 95%N \/ (0xC0 <= c <= 0xFF)%N
   \/ py_isspace c = true \/ c = 64%N \/ c = 46%N \/ c = 45%N).
Proof.
  unfold sanitize_keeps, re_word, in_range.
  rewrite !orb_true_iff, andb_true_iff, !N.eqb_eq, !N.leb_le. tauto.
Qed.

(** [re.sub] with the sanitizing pattern leaves a string of the kept class
    as it is. *)
Lemma sanitize_keeps_underscore U : sanitize U (py "a_b") = py "a_b".
Proof. reflexivity. Qed.

(** C3, as stated, fails: the underscore is neither alphanumeric nor an
    accented letter, white space, [@], [.] or [-], yet sanitizing keeps it
    ([a_b] stays [a_b]). *)
Lemma sanitize_not_spec_class :
  ~ (forall (U : UnicodeData) (v : pystr), sanitize U v = spec_sanitize U v).
Proof.
  intros H. specialize (H ucd_plain (py "a_b")). vm_compute in H. discriminate H.
Qed.

(** C3, amended: with [sanitizeCharacters] on, the value cleaned further is
    the stripped text without the characters outside the class of the
    pattern, in their order; a character is kept exactly when it is
    alphanumeric, the underscore, a code point from U+00C0 to U+00FF, white
    space, [@], [.] or [-]. *)
Theorem sanitize_strips_outside_class U (opts : options) (raw : pystr) :
  sanitize_characters opts = true ->
  let value := py_strip raw in
  prepared U opts raw = sanitize U value
  /\ sanitize U value `sublist_of` value
  /\ (forall c, c ∈ sanitize U value <->
        c ∈ value
        /\ (py_isalnum U c = true \/ c = 95%N \/ (0xC0 <= c <= 0xFF)%N
            \/ py_isspace c = true \/ c = 64%N \/ c = 46%N \/ c = 45%N))
  /\ (forall v, Forall (fun c => sanitize_keeps U c = true) v -> sanitize U v = v).
Proof.
  intros Hs value. rewrite prepared_sanitized, Hs. split; [reflexivity|].
  split.
  - unfold sanitize. induction value as [|c v IH]; simpl; [constructor|].
    destruct (sanitize_keeps U c); [apply sublist_skip | apply sublist_cons]; exact IH.
  - split.
    + intros c. unfold sanitize. rewrite !list_elem_of_In, filter_In.
      rewrite sanitize_keeps_iff. reflexivity.
    + intros v Hv. unfold sanitize. induction Hv as [|c v Hc _ IH]; simpl; [reflexivity|].
      rewrite Hc, IH. reflexivity.
Qed.

Lemma sanitize_strips_outside_class_witness :
  prepared ucd_plain default_options (py "  jean-pierre dupont!!  ") = py "jean-pierre dupont"
  /\ clean_cell ucd_plain default_options (Some (py "  jean-pierre dupont!!  "))
     = Some (py "Jean-pierre Dupont").
Proof.
  destruct (sanitize_strips_outside_class ucd_plain default_options
              (py "  jean-pierre dupont!!  ") eq_refl) as (H & _).
  split; [rewrite H; vm_compute; reflexivity | vm_compute; reflexivity].
Defined.

Lemma email_shape_no_space (v : pystr) :
  email_shape v -> existsb py_isspace v = false.
Proof.
  intros (l & d & t & -> & _ & _ & _ & Hall).
  apply Forall_app in Hall as [Hl Hall]. apply Forall_app in Hall as [Hd Ht].
  assert (Hpart : forall s, Forall (fun c => email_char c = true) s ->
                            existsb py_isspace s = false).
  { intros s Hs. induction Hs as [|c s Hc _ IH]; [reflexivity|]. simpl.
    rewrite IH. unfold email_char in Hc. apply negb_true_iff, orb_false_iff in Hc.
    destruct Hc as [_ ->]. reflexivity. }
  rewrite !existsb_app, (Hpart l Hl), (Hpart d Hd), (Hpart t Ht). reflexivity.
Qed.

(** The cell of the three theorems below: [a@b.c], a line feed and [!]. *)
Lemma newline_cell_prepared U :
  prepared U default_options (py "a@b.c" ++ [10%N] ++ py "!") = py "a@b.c" ++ [10%N].
Proof. reflexivity. Qed.

(** C5 at the cell [a@b.c\n!], all switches on: stripping finds nothing to
    strip, sanitizing removes [!] and bares the line feed, [$] lets it pass
    and the first cleaning returns [a@b.c\n]; cleaning that again strips the
    line feed and returns [a@b.c]. *)
Theorem clean_cell_twice_differs U :
  let x := Some (py "a@b.c" ++ [10%N] ++ py "!") in
  clean_cell U default_options x = Some (py "a@b.c" ++ [10%N])
  /\ clean_cell U default_options (clean_cell U default_options x) = Some (py "a@b.c")
  /\ clean_cell U default_options (clean_cell U default_options x)
     <> clean_cell U default_options x.
Proof.
  cbv zeta. split; [reflexivity|]. split; [reflexivity|].
  change (Some (py "a@b.c") <> Some (py "a@b.c" ++ [10%N])). discriminate.
Qed.

(** C6 at the same cell: the stripped and sanitized value [a@b.c\n] holds
    an [@] and is not of the shape [local@domain.tld], since it holds white
    space, yet the cell does not become absent. *)
Theorem clean_cell_accepts_trailing_newline U :
  let raw := py "a@b.c" ++ [10%N] ++ py "!" in
  let value := prepared U default_options raw in
  clean_emails default_options = true
  /\ py_in 64 value = true
  /\ ~ email_shape value
  /\ clean_cell U default_options (Some raw) = Some (py_lower U value)
  /\ clean_cell U default_options (Some raw) <> None.
Proof.
  cbv zeta. rewrite newline_cell_prepared.
  split; [reflexivity|]. split; [reflexivity|]. split.
  - intros H. apply email_shape_no_space in H. vm_compute in H. discriminate H.
  - split; [reflexivity | discriminate].
Qed.

(** C10 at the same cell: the result of the email branch, [a@b.c\n], ends
    in white space, so stripping changes it. *)
Theorem clean_cell_email_keeps_newline U :
  let x := Some (py "a@b.c" ++ [10%N] ++ py "!") in
  exists r, clean_cell U default_options x = Some r
    /\ existsb py_isspace r = true
    /\ last r = Some 10%N
    /\ py_isspace 10 = true
    /\ py_strip r <> r.
Proof.
  cbv zeta. exists (py "a@b.c" ++ [10%N]).
  split; [reflexivity|]. split; [reflexivity|]. split; [reflexivity|].
  split; [reflexivity|]. vm_compute. discriminate.
Qed.

(** ** The hook and the refused extensions *)

Lemma cleanup_old_files_deletes (now : Z) (w : world) (d : gmap pystr entry) :
  static w = Some d ->
  exists w' deleted,
    cleanup_old_files now w = Some w'
    /\ effects w' = deleted ++ effects w
    /\ Forall (fun e => exists name mtime size,
                 e = FsDelete (static_path name)
                 /\ d !! name = Some (File mtime size true)
                 /\ mtime < now - 24 * 3600) deleted.
Proof.
  intros Hd. unfold cleanup_old_files. rewrite Hd. cbn [mbind option_bind].
  eexists _, _. split; [reflexivity|]. split; [reflexivity|].
  apply List.Forall_rev, List.Forall_map, Forall_forall.
  intros [name e] Hin. apply list_elem_of_filter in Hin as [Hstale Hin].
  apply elem_of_map_to_list in Hin. cbn [fst snd] in *.
  destruct e as [mtime size removable|]; [|discriminate Hstale].
  cbn [stale] in Hstale. apply andb_true_iff in Hstale as [Hold ->].
  apply Z.ltb_lt in Hold. exists name, mtime, size. auto.
Qed.

Lemma cleanup_old_files_nothing_stale (now : Z) (w : world) (d : gmap pystr entry) :
  static w = Some d ->
  (forall name mtime size removable,
     d !! name = Some (File mtime size removable) -> now - 24 * 3600 <= mtime) ->
  cleanup_old_files now w = Some w.
Proof.
  intros Hd Hfresh. unfold cleanup_old_files. rewrite Hd. cbn [mbind option_bind].
  assert (Hnil : filter (fun kv : pystr * entry => stale (now - 24 * 3600) kv.2 = true)
                   (map_to_list d) = []).
  { destruct (filter _ _) as [|[name e] rest] eqn:E; [reflexivity|]. exfalso.
    assert (Hin : (name, e) ∈ filter
              (fun kv : pystr * entry => stale (now - 24 * 3600) kv.2 = true)
              (map_to_list d)) by (rewrite E; left).
    apply list_elem_of_filter in Hin as [Hstale Hin].
    apply elem_of_map_to_list in Hin. cbn [snd] in Hstale.
    destruct e as [mtime size removable|]; [|discriminate Hstale].
    cbn [stale] in Hstale. apply andb_true_iff in Hstale as [Hold _].
    apply Z.ltb_lt in Hold. specialize (Hfresh _ _ _ _ Hin). lia. }
  rewrite Hnil. cbn. destruct w as [st eff]. cbn in *. subst st. reflexivity.
Qed.

Lemma route_refuses_extension (U : UnicodeData) (L : libraries) (env : environment)
    (r : request) (w : world) (up : upload) :
  request_file r = Some up ->
  accepts_extension U r (filename up) = false ->
  route U L env r w = (w, ReplyError 400 UnsupportedFormat).
Proof.
  intros Hfile Hext. destruct r as [file|file f|file f]; cbn in Hfile; subst file;
    cbn [accepts_extension] in Hext; cbn [route].
  - unfold extract_pdf. rewrite Hext. reflexivity.
  - apply orb_false_iff in Hext as [Hcsv Hxlsx].
    unfold excel_cleaner. cbv zeta. rewrite Hcsv, Hxlsx. reflexivity.
  - unfold pdf_compress. rewrite Hext. reflexivity.
Qed.

(** C9, as stated, fails: a [.txt] file posted to [/extract] in a body of
    1024 bytes, well within the cap, while [static] holds a file older than
    a day is answered 400, and the request deletes that file, since
    [cleanup_old_files] runs before every route. *)
Lemma unsupported_extension_deletes_old_file :
  let r := PostExtract (Some {| filename := py "notes.txt"; content := [] |}) in
  accepts_extension ucd_plain r (py "notes.txt") = false
  /\ serve ucd_plain (libraries_with gs_fails) env_example 1024 r world_with_old_file
     = ({| static := Some ∅; effects := [FsDelete (py "static/old.pdf")] |},
        ReplyError 400 UnsupportedFormat).
Proof. cbv zeta. split; vm_compute; reflexivity. Qed.

(** C9, amended: while [static] exists, a request to any of the three
    routes whose body is within the 20 MiB cap and whose file has an
    extension the route does not take is answered 400 [UnsupportedFormat];
    above the cap the same request is answered 413 [PayloadTooLarge]
    instead. In both cases the route itself leaves the world as it finds it
    (no write, no delete, no subprocess), and what the request does is what
    [cleanup_old_files] does before the route: it deletes files of [static]
    last modified more than 24 hours ago, and nothing when there is none. *)
Theorem unsupported_extension_only_cleanup (U : UnicodeData) (L : libraries)
    (env : environment) (content_length : Z) (r : request) (w : world)
    (d : gmap pystr entry) (up : upload) :
  static w = Some d ->
  request_file r = Some up ->
  accepts_extension U r (filename up) = false ->
  exists w' deleted,
    (content_length <= MAX_CONTENT_LENGTH ->
       serve U L env content_length r w = (w', ReplyError 400 UnsupportedFormat))
    /\ (MAX_CONTENT_LENGTH < content_length ->
       serve U L env content_length r w = (w', ReplyError 413 PayloadTooLarge))
    /\ cleanup_old_files (clock env) w = Some w'
    /\ route U L env r w' = (w', ReplyError 400 UnsupportedFormat)
    /\ effects w' = deleted ++ effects w
    /\ Forall (fun e => exists name mtime size,
                 e = FsDelete (static_path name)
                 /\ d !! name = Some (File mtime size true)
                 /\ mtime < clock env - 24 * 3600) deleted
    /\ ((forall name mtime size removable,
           d !! name = Some (File mtime size removable) ->
           clock env - 24 * 3600 <= mtime) -> w' = w).
Proof.
  intros Hd Hfile Hext.
  destruct (cleanup_old_files_deletes (clock env) w d Hd) as (w' & deleted & Hc & He & Hall).
  exists w', deleted. unfold serve. rewrite Hc.
  rewrite (route_refuses_extension U L env r w' up Hfile Hext).
  split; [|split].
  - intros Hcap. apply Z.ltb_ge in Hcap. rewrite Hcap. reflexivity.
  - intros Hcap. apply Z.ltb_lt in Hcap. rewrite Hcap. reflexivity.
  - repeat split; try assumption.
    intros Hfresh. rewrite (cleanup_old_files_nothing_stale _ _ _ Hd Hfresh) in Hc.
    congruence.
Qed.

Lemma unsupported_extension_only_cleanup_witness :
  exists w' deleted,
    serve ucd_plain (libraries_with gs_fails) env_example 1024
      (PostPdfCompress (Some {| filename := py "notes.txt"; content := [] |}) ∅)
      world_with_old_file = (w', ReplyError 400 UnsupportedFormat)
    /\ serve ucd_plain (libraries_with gs_fails) env_example (MAX_CONTENT_LENGTH + 1)
      (PostPdfCompress (Some {| filename := py "notes.txt"; content := [] |}) ∅)
      world_with_old_file = (w', ReplyError 413 PayloadTooLarge)
    /\ effects w' = deleted ++ [].
Proof.
  destruct (unsupported_extension_only_cleanup ucd_plain (libraries_with gs_fails)
              env_example 1024
              (PostPdfCompress (Some {| filename := py "notes.txt"; content := [] |}) ∅)
              world_with_old_file {[ py "old.pdf" := File 0 10 true ]}
              {| filename := py "notes.txt"; content := [] |}
              eq_refl eq_refl eq_refl) as (w' & deleted & Hs & _ & Hc & _ & He & _).
  exists w', deleted. split; [apply Hs; vm_compute; discriminate|].
  split; [|assumption].
  unfold serve. rewrite Hc. reflexivity.
Defined.

(** ** The artifacts of [/pdf-compress] *)

Lemma input_output_names_differ (sb : pystr -> pystr) (env : environment) (up : upload) :
  output_name sb env up <> input_name sb env up.
Proof.
  unfold output_name, input_name. intros H. apply app_inv_head in H.
  vm_compute in H. discriminate H.
Qed.

Lemma alert_for_set_iff (mode : pystr) (o c : Z) :
  alert_for mode o c <> None <-> o <= c.
Proof.
  unfold alert_for. destruct (o <=? c) eqn:E.
  - apply Z.leb_le in E. split; [auto | discriminate].
  - apply Z.leb_gt in E. split; [congruence | lia].
Qed.

(** A successful reply of [compress_file], read back. *)
Lemma compress_file_ok (sb : pystr -> pystr)
    (gs : list pystr -> gmap pystr entry -> gs_result) (env : environment)
    (up : upload) (f : form) (w w' : world) (r : compression) :
  compress_file sb gs env up f w = (w', ReplyCompress r) ->
  let mode := default (py "lossless") (f !! py "mode") in
  originalSize r = py_len (content up)
  /\ gain_percent (originalSize r) (compressedSize r) = Some (gainPercent r)
  /\ alert r = alert_for mode (originalSize r) (compressedSize r)
  /\ url r = py "http://localhost:8000/static/" ++ output_name sb env up
  /\ exists d, static w' = Some d
       /\ (exists mtime removable,
             d !! output_name sb env up = Some (File mtime (compressedSize r) removable))
       /\ d !! input_name sb env up = None.
Proof.
  unfold compress_file. cbv zeta. fold (input_name sb env up) (output_name sb env up).
  destruct (match static w with Some d => _ | None => _ end) as [d0 w0].
  destruct (negb _); [discriminate|].
  match goal with |- context [match ?m !! output_name sb env up with _ => _ end] =>
    destruct (m !! output_name sb env up) as [[mtime csize rem|]|] eqn:Hout;
      try discriminate;
    destruct (m !! input_name sb env up) as [[mtime' isize [|]|]|] eqn:Hin;
      try discriminate
  end.
  destruct (gain_percent _ csize) as [gain|] eqn:Hgain; [|discriminate].
  intros H. injection H as <- <-. cbn.
  repeat split; try assumption; try reflexivity.
  eexists. split; [reflexivity|]. split.
  - exists mtime, rem. rewrite lookup_delete_ne by apply not_eq_sym, input_output_names_differ.
    exact Hout.
  - apply lookup_delete_eq.
Qed.

(** C4: in every successful reply of [/pdf-compress], [gainPercent] is
    [round(100 * (1 - compressedSize / originalSize), 2)] on the sizes the
    reply carries, the original size being that of the upload, and [alert]
    is set exactly when [compressedSize >= originalSize]; sizes 1,000,000
    and 750,000 give 25.0, and 1,100,000 after 1,000,000 sets the alert. *)
Theorem pdf_compress_report (U : UnicodeData) (sb : pystr -> pystr)
    (gs : list pystr -> gmap pystr entry -> gs_result) (env : environment)
    (file : option upload) (f : form) (w w' : world) (r : compression) :
  pdf_compress U sb gs env file f w = (w', ReplyCompress r) ->
  originalSize r <> 0
  /\ gainPercent r
     = py_round (100 * (1 - nearest_double (compressedSize r) (originalSize r)))%float 2
  /\ (alert r <> None <-> originalSize r <= compressedSize r)
  /\ (alert r = None <-> compressedSize r < originalSize r)
  /\ gain_percent 1000000 750000 = Some 25%float
  /\ (forall mode, alert_for mode 1000000 1100000 <> None).
Proof.
  unfold pdf_compress. destruct file as [up|]; [|discriminate].
  destruct (negb _); [discriminate|]. intros H.
  apply compress_file_ok in H. cbv zeta in H.
  destruct H as (_ & Hgain & Halert & _).
  unfold gain_percent, py_truediv in Hgain.
  destruct (originalSize r =? 0) eqn:E; [discriminate Hgain|].
  apply Z.eqb_neq in E. cbn in Hgain. injection Hgain as Hgain.
  split; [exact E|]. split; [symmetry; exact Hgain|].
  rewrite Halert. split; [apply alert_for_set_iff|]. split.
  - pose proof (alert_for_set_iff (default (py "lossless") (f !! py "mode"))
                  (originalSize r) (compressedSize r)) as Hiff.
    destruct (alert_for _ _ _).
    + split; [discriminate|]. intros Hlt. assert (originalSize r <= compressedSize r)
        by (apply Hiff; discriminate). lia.
    + split; [|reflexivity]. intros _.
      destruct (Z.lt_ge_cases (compressedSize r) (originalSize r)) as [?|Hge]; [assumption|].
      apply Hiff in Hge. congruence.
  - split; [vm_compute; reflexivity|]. intros mode. apply alert_for_set_iff. lia.
Qed.

Lemma pdf_compress_report_witness :
  exists w' r,
    pdf_compress ucd_plain (secure_basename (libraries_with (gs_writes 3)))
      (gs_writes 3) env_example
      (Some {| filename := py "doc.pdf"; content := [1; 2; 3; 4]%N |}) ∅ world_empty
    = (w', ReplyCompress r)
    /\ originalSize r = 4 /\ compressedSize r = 3
    /\ gainPercent r = 25%float /\ alert r = None.
Proof.
  eexists _, _. split; [vm_compute; reflexivity|].
  pose proof (pdf_compress_report ucd_plain (secure_basename (libraries_with (gs_writes 3)))
    (gs_writes 3) env_example
    (Some {| filename := py "doc.pdf"; content := [1; 2; 3; 4]%N |}) ∅ world_empty
    _ _ ltac:(vm_compute; reflexivity)) as (_ & Hg & _).
  split; [reflexivity|]. split; [reflexivity|].
  split; [rewrite Hg; vm_compute; reflexivity | reflexivity].
Defined.

(** C2 where the converter exits with a non-zero status: the reply is 500
    [ConverterFailed], the input artifact written for the request is still
    in [static], and the request has not deleted it. The success path
    removes it ([compress_file_ok]); this path returns before [os.remove]. *)
Theorem pdf_compress_keeps_input_on_converter_failure (U : UnicodeData)
    (sb : pystr -> pystr) (gs : list pystr -> gmap pystr entry -> gs_result)
    (env : environment) (up : upload) (f : form) (w : world) :
  py_endswith (py_lower U (filename up)) (py ".pdf") = true ->
  (forall command d, exited_zero (gs command d) = false) ->
  exists w' d',
    pdf_compress U sb gs env (Some up) f w = (w', ReplyError 500 ConverterFailed)
    /\ static w' = Some d'
    /\ d' !! input_name sb env up = Some (File (saved_at env) (py_len (content up)) true)
    /\ FsWrite (static_path (input_name sb env up)) ∈ effects w'
    /\ (FsDelete (static_path (input_name sb env up)) ∈ effects w' ->
        FsDelete (static_path (input_name sb env up)) ∈ effects w).
Proof.
  intros Hext Hfail. unfold pdf_compress. rewrite Hext. cbn [negb].
  unfold compress_file. cbv zeta. fold (input_name sb env up) (output_name sb env up).
  assert (Hkeep : forall (d : gmap pystr entry) (res : gs_result),
    match produced res with
    | Some size => <[output_name sb env up := File (converted_at env) size true]>
                     (<[input_name sb env up := File (saved_at env) (py_len (content up)) true]> d)
    | None => <[input_name sb env up := File (saved_at env) (py_len (content up)) true]> d
    end !! input_name sb env up = Some (File (saved_at env) (py_len (content up)) true)).
  { intros d res. destruct (produced res).
    - rewrite lookup_insert_ne by apply input_output_names_differ. apply lookup_insert_eq.
    - apply lookup_insert_eq. }
  destruct (static w) as [d|] eqn:Hd; rewrite Hfail; cbn [negb];
    eexists _, _; (split; [reflexivity|]); cbn [static effects perform set_static];
    (split; [reflexivity|]); (split; [apply Hkeep|]).
  - split; [apply elem_of_cons; right; apply elem_of_cons; left; reflexivity|].
    rewrite !elem_of_cons. intros [H|[H|H]]; [discriminate H | discriminate H | exact H].
  - split; [apply elem_of_cons; right; apply elem_of_cons; left; reflexivity|].
    rewrite !elem_of_cons. intros [H|[H|[H|H]]];
      [discriminate H | discriminate H | discriminate H | exact H].
Qed.

Lemma pdf_compress_keeps_input_on_converter_failure_witness :
  exists w' d',
    pdf_compress ucd_plain (secure_basename (libraries_with gs_fails)) gs_fails env_example
      (Some {| filename := py "doc.pdf"; content := [1; 2; 3; 4]%N |}) ∅ world_empty
    = (w', ReplyError 500 ConverterFailed)
    /\ static w' = Some d'
    /\ d' !! py "doc_input_u1.pdf" = Some (File 100001 4 true)
    /\ FsDelete (py "static/doc_input_u1.pdf") ∉ effects w'.
Proof.
  destruct (pdf_compress_keeps_input_on_converter_failure ucd_plain
              (secure_basename (libraries_with gs_fails)) gs_fails env_example
              {| filename := py "doc.pdf"; content := [1; 2; 3; 4]%N |} ∅ world_empty
              eq_refl (fun _ _ => eq_refl))
    as (w' & d' & Hr & Hs & Hin & _ & Hdel).
  exists w', d'. split; [exact Hr|]. split; [exact Hs|]. split; [exact Hin|].
  intros H. apply Hdel in H. apply elem_of_nil in H. exact H.
Defined.

(** ** The matcher against what the patterns denote *)

Lemma lang_void_inv (s : pystr) : re_lang Void s -> False.
Proof. intros H. inversion H. Qed.

Lemma lang_eps_inv (s : pystr) : re_lang Eps s -> s = [].
Proof. intros H. inversion H. reflexivity. Qed.

Lemma lang_cls_inv (p : N -> bool) (s : pystr) :
  re_lang (Cls p) s -> exists c, s = [c] /\ p c = true.
Proof. intros H. inversion H; subst. eauto. Qed.

Lemma lang_cat_inv (r1 r2 : re) (s : pystr) :
  re_lang (Cat r1 r2) s ->
  exists s1 s2, s = s1 ++ s2 /\ re_lang r1 s1 /\ re_lang r2 s2.
Proof. intros H. inversion H; subst. eauto. Qed.

Lemma lang_alt_inv (r1 r2 : re) (s : pystr) :
  re_lang (Alt r1 r2) s -> re_lang r1 s \/ re_lang r2 s.
Proof. intros H. inversion H; subst; auto. Qed.

Lemma nullable_spec (r : re) : nullable r = true <-> re_lang r [].
Proof.
  induction r as [| |p|r1 IH1 r2 IH2|r1 IH1 r2 IH2|r IH]; simpl.
  - split; [discriminate | intros H; destruct (lang_void_inv _ H)].
  - split; [constructor | reflexivity].
  - split; [discriminate|]. intros H.
    apply lang_cls_inv in H as (c & Hc & _). discriminate Hc.
  - rewrite andb_true_iff, IH1, IH2. split.
    + intros [H1 H2]. apply (lang_cat r1 r2 [] [] H1 H2).
    + intros H. apply lang_cat_inv in H as (s1 & s2 & Heq & H1 & H2).
      symmetry in Heq. apply app_eq_nil in Heq as [-> ->]. auto.
  - rewrite orb_true_iff, IH1, IH2. split.
    + intros [H|H]; [apply lang_alt_l | apply lang_alt_r]; exact H.
    + apply lang_alt_inv.
  - split; [constructor | reflexivity].
Qed.

Lemma lang_star_cons_inv (r : re) (c : N) (s : pystr) :
  re_lang (Star r) (c :: s) ->
  exists s1 s2, s = s1 ++ s2 /\ re_lang r (c :: s1) /\ re_lang (Star r) s2.
Proof.
  intros H. remember (Star r) as r' eqn:Hr. remember (c :: s) as s' eqn:Hs.
  revert s Hs. induction H as [| | | | | |r0 s1 s2 H1 _ H2 IH2]; intros t Ht;
    try discriminate.
  injection Hr as ->. destruct s1 as [|c1 s1].
  - apply IH2; [reflexivity | exact Ht].
  - injection Ht as -> <-. exists s1, s2. auto.
Qed.

Lemma deriv_spec (c : N) (r : re) (s : pystr) :
  re_lang (deriv c r) s <-> re_lang r (c :: s).
Proof.
  revert s. induction r as [| |p|r1 IH1 r2 IH2|r1 IH1 r2 IH2|r IH]; intros s; simpl.
  - split; intros H; destruct (lang_void_inv _ H).
  - split; intros H; [destruct (lang_void_inv _ H)|].
    apply lang_eps_inv in H. discriminate H.
  - split.
    + intros H. destruct (p c) eqn:Hp; [|destruct (lang_void_inv _ H)].
      apply lang_eps_inv in H as ->. constructor. exact Hp.
    + intros H. apply lang_cls_inv in H as (c' & Heq & Hp).
      injection Heq as -> ->. rewrite Hp. constructor.
  - assert (Hcat : re_lang (Cat (deriv c r1) r2) s ->
                   re_lang (Cat r1 r2) (c :: s)).
    { intros H. apply lang_cat_inv in H as (s1 & s2 & -> & H1 & H2).
      apply IH1 in H1. apply (lang_cat r1 r2 (c :: s1) s2 H1 H2). }
    assert (Hinv : re_lang (Cat r1 r2) (c :: s) ->
                   re_lang (Cat (deriv c r1) r2) s
                   \/ (re_lang r1 [] /\ re_lang (deriv c r2) s)).
    { intros H. apply lang_cat_inv in H as (s1 & s2 & Heq & H1 & H2).
      destruct s1 as [|c1 s1]; simpl in Heq.
      - subst s2. right. split; [exact H1 | apply IH2; exact H2].
      - injection Heq as -> ->. left. apply lang_cat; [apply IH1; exact H1 | exact H2]. }
    destruct (nullable r1) eqn:Hn.
    + split.
      * intros H. apply lang_alt_inv in H as [H|H]; [apply Hcat; exact H|].
        apply (lang_cat r1 r2 [] (c :: s)); [apply nullable_spec; exact Hn | apply IH2; exact H].
      * intros H. destruct (Hinv H) as [H'|[_ H']]; [apply lang_alt_l | apply lang_alt_r]; exact H'.
    + split; [exact Hcat|].
      intros H. destruct (Hinv H) as [H'|[H' _]]; [exact H'|].
      apply nullable_spec in H'. congruence.
  - split; intros H.
    + apply lang_alt_inv in H as [H|H]; [apply lang_alt_l, IH1 | apply lang_alt_r, IH2]; exact H.
    + apply lang_alt_inv in H as [H|H]; [apply lang_alt_l, IH1 | apply lang_alt_r, IH2]; exact H.
  - split.
    + intros H. apply lang_cat_inv in H as (s1 & s2 & -> & H1 & H2).
      apply (lang_star_cons r (c :: s1) s2); [apply IH; exact H1 | exact H2].
    + intros H. apply lang_star_cons_inv in H as (s1 & s2 & -> & H1 & H2).
      apply lang_cat; [apply IH; exact H1 | exact H2].
Qed.

(** The derivative matcher decides the language of a pattern. *)
Lemma re_fullmatch_spec (r : re) (s : pystr) :
  re_fullmatch r s = true <-> re_lang r s.
Proof.
  revert r. induction s as [|c s IH]; intros r; simpl.
  - apply nullable_spec.
  - rewrite IH. apply deriv_spec.
Qed.

Lemma star_cls_lang (p : N -> bool) (s : pystr) :
  re_lang (Star (Cls p)) s <-> Forall (fun c => p c = true) s.
Proof.
  split.
  - intros H. remember (Star (Cls p)) as r eqn:Hr.
    induction H as [| | | | | |r0 s1 s2 H1 _ _ IH2]; try discriminate; [constructor|].
    injection Hr as ->. apply lang_cls_inv in H1 as (c & -> & Hc).
    constructor; [exact Hc | apply IH2; reflexivity].
  - intros H. induction H as [|c s Hc _ IH]; [constructor|].
    apply (lang_star_cons (Cls p) [c] s); [constructor; exact Hc | exact IH].
Qed.

Lemma plus_cls_lang (p : N -> bool) (s : pystr) :
  re_lang (Plus (Cls p)) s <-> s <> [] /\ Forall (fun c => p c = true) s.
Proof.
  unfold Plus. split.
  - intros H. apply lang_cat_inv in H as (s1 & s2 & -> & H1 & H2).
    apply lang_cls_inv in H1 as (c & -> & Hc). apply star_cls_lang in H2.
    split; [discriminate | constructor; assumption].
  - intros [Hne H]. destruct H as [|c s Hc H]; [congruence|].
    apply (lang_cat (Cls p) (Star (Cls p)) [c] s); [constructor; exact Hc|].
    apply star_cls_lang. exact H.
Qed.

Lemma chr_lang (c : N) (s : pystr) : re_lang (Chr c) s <-> s = [c].
Proof.
  unfold Chr. split.
  - intros H. apply lang_cls_inv in H as (c' & -> & Hc).
    apply N.eqb_eq in Hc. congruence.
  - intros ->. constructor. apply N.eqb_refl.
Qed.

(** The pattern between [^] and [$] denotes the shape [local@domain.tld]. *)
Lemma email_re_lang (v : pystr) : re_lang email_re v <-> email_shape v.
Proof.
  unfold email_re, email_shape. split.
  - intros H.
    apply lang_cat_inv in H as (l & s1 & -> & Hl & H).
    apply lang_cat_inv in H as (a & s2 & -> & Ha & H).
    apply lang_cat_inv in H as (d & s3 & -> & Hd & H).
    apply lang_cat_inv in H as (b & t & -> & Hb & Ht).
    apply chr_lang in Ha as ->. apply chr_lang in Hb as ->.
    apply plus_cls_lang in Hl as [Hl1 Hl2]. apply plus_cls_lang in Hd as [Hd1 Hd2].
    apply plus_cls_lang in Ht as [Ht1 Ht2].
    exists l, d, t. repeat split; try assumption.
    apply Forall_app. split; [exact Hl2|]. apply Forall_app. split; assumption.
  - intros (l & d & t & -> & Hl & Hd & Ht & Hall).
    apply Forall_app in Hall as [Hl2 Hall]. apply Forall_app in Hall as [Hd2 Ht2].
    apply lang_cat; [apply plus_cls_lang; auto|].
    apply lang_cat; [apply chr_lang; reflexivity|].
    apply lang_cat; [apply plus_cls_lang; auto|].
    apply lang_cat; [apply chr_lang; reflexivity|].
    apply plus_cls_lang; auto.
Qed.

Lemma chop_newline_spec (s s' : pystr) : chop_newline s = Some s' <-> s = s' ++ [10%N].
Proof.
  unfold chop_newline. split.
  - intros H. destruct (rev s) as [|c t] eqn:E; [discriminate|].
    assert (Hs : s = rev t ++ [c]) by (rewrite <- (rev_involutive s), E; reflexivity).
    destruct (decide (c = 10%N)) as [->|Hne].
    + injection H as <-. exact Hs.
    + exfalso. destruct c as [|p]; [discriminate|].
      do 4 (destruct p as [p|p|]; try discriminate H). congruence.
  - intros ->. rewrite rev_app_distr. simpl. rewrite rev_involutive. reflexivity.
Qed.

(** What [re.match] accepts for the email pattern: the shape, or the shape
    followed by one line feed. *)
Lemma re_match_anchored_email (v : pystr) :
  re_match_anchored email_re v = true <->
  email_shape v \/ exists v', v = v' ++ [10%N] /\ email_shape v'.
Proof.
  unfold re_match_anchored. rewrite orb_true_iff, re_fullmatch_spec, email_re_lang.
  split.
  - intros [H|H]; [left; exact H|]. right.
    destruct (chop_newline v) as [v'|] eqn:E; [|discriminate].
    apply chop_newline_spec in E. apply re_fullmatch_spec, email_re_lang in H. eauto.
  - intros [H|(v' & Hv & H)]; [left; exact H|]. right.
    apply chop_newline_spec in Hv. rewrite Hv.
    apply re_fullmatch_spec, email_re_lang. exact H.
Qed.

(** The email branch of [clean_cell], in general: a prepared value holding
    an [@] is lower-cased when it has the shape, alone or followed by one
    line feed, and the cell is absent otherwise; no title-casing applies. *)
Lemma clean_cell_email_branch (U : UnicodeData) (opts : options) (raw : pystr) :
  clean_emails opts = true ->
  py_in 64 (prepared U opts raw) = true ->
  let value := prepared U opts raw in
  let passes := email_shape value \/ exists v', value = v' ++ [10%N] /\ email_shape v' in
  (passes -> clean_cell U opts (Some raw) = Some (py_lower U value))
  /\ (~ passes -> clean_cell U opts (Some raw) = None).
Proof.
  intros Hce Hat value passes. unfold clean_cell.
  change (if sanitize_characters opts then sanitize U (py_strip raw) else py_strip raw)
    with value.
  rewrite Hce. fold value in Hat. rewrite Hat. cbn [andb].
  pose proof (re_match_anchored_email value) as Hm. fold passes in Hm.
  destruct (re_match_anchored email_re value); cbn [negb]; split; try reflexivity.
  - intros Hn. exfalso. apply Hn, Hm. reflexivity.
  - intros Hp. apply Hm in Hp. discriminate Hp.
Qed.

Lemma lstrip_head (s : pystr) (c : N) :
  head (lstrip s) = Some c -> py_isspace c = false.
Proof.
  induction s as [|a s IH]; simpl; [discriminate|].
  destruct (py_isspace a) eqn:E; [exact IH|]. simpl. congruence.
Qed.

(** A stripped string does not end in white space. *)
Lemma py_strip_last (s : pystr) (c : N) :
  last (py_strip s) = Some c -> py_isspace c = false.
Proof.
  unfold py_strip, rstrip. intros H. apply (lstrip_head (rev (lstrip s))).
  destruct (lstrip (rev (lstrip s))) as [|a t]; [discriminate H|].
  simpl in H. rewrite last_snoc in H. exact H.
Qed.

(** With [sanitizeCharacters] off nothing can bare a line feed, and the
    email branch follows the shape alone. *)
Lemma clean_cell_email_branch_unsanitized (U : UnicodeData) (opts : options) (raw : pystr) :
  clean_emails opts = true ->
  sanitize_characters opts = false ->
  py_in 64 (py_strip raw) = true ->
  (email_shape (py_strip raw) ->
     clean_cell U opts (Some raw) = Some (py_lower U (py_strip raw)))
  /\ (~ email_shape (py_strip raw) -> clean_cell U opts (Some raw) = None).
Proof.
  intros Hce Hs Hat.
  assert (Hprep : prepared U opts raw = py_strip raw)
    by (rewrite prepared_sanitized, Hs; reflexivity).
  pose proof (clean_cell_email_branch U opts raw Hce) as H.
  rewrite Hprep in H. specialize (H Hat). cbv zeta in H. destruct H as [Hyes Hno].
  split; [intros Hsh; apply Hyes; left; exact Hsh|].
  intros Hn. apply Hno. intros [Hsh|(v' & Hv & _)]; [exact (Hn Hsh)|].
  assert (Hl : last (py_strip raw) = Some 10%N) by (rewrite Hv; apply last_snoc).
  apply py_strip_last in Hl. vm_compute in Hl. discriminate Hl.
Qed.

Lemma clean_cell_email_examples (U : UnicodeData) (opts : options) :
  clean_emails opts = true ->
  clean_cell U opts (Some (py "John@Example.COM ")) = Some (py "john@example.com")
  /\ clean_cell U opts (Some (py "not-an-email@@x")) = None.
Proof.
  intros Hce. destruct opts as [rd ce [|]]; cbn in Hce; subst ce; split; reflexivity.
Qed.

(** Without [static] the hook raises on [os.listdir] and no route runs. *)
Lemma serve_without_static (U : UnicodeData) (L : libraries) (env : environment)
    (content_length : Z) (r : request) (w : world) :
  static w = None ->
  serve U L env content_length r w = (w, ReplyError 500 InternalServerError).
Proof.
  intros H. unfold serve, cleanup_old_files. rewrite H. reflexivity.
Qed.

(** A successful compression leaves the output artifact in [static] and
    removes the input artifact. *)
Lemma pdf_compress_success_removes_input :
  exists w' d r,
    serve ucd_plain (libraries_with (gs_writes 3)) env_example 1024
      (PostPdfCompress (Some {| filename := py "doc.pdf"; content := [1; 2; 3; 4]%N |}) ∅)
      world_empty = (w', ReplyCompress r)
    /\ static w' = Some d
    /\ d !! py "doc_input_u1.pdf" = None
    /\ d !! py "doc_compressed_u2.pdf" = Some (File 100002 3 true)
    /\ url r = py "http://localhost:8000/static/doc_compressed_u2.pdf".
Proof.
  eexists _, _, _. split; [vm_compute; reflexivity|].
  split; [reflexivity|]. repeat split; vm_compute; reflexivity.
Qed.

(** * Further properties *)

(** ** [/extract]: the cap and the join *)

Lemma py_join_length (sep : pystr) (pages : list pystr) :
  pages <> [] ->
  py_len (py_join sep pages)
  = foldr (fun p n => py_len p + n) 0 pages + py_len sep * (Z.of_nat (length pages) - 1).
Proof.
  unfold py_len. induction pages as [|p rest IH]; [congruence|]. intros _.
  destruct rest as [|q rest'].
  - simpl. lia.
  - specialize (IH ltac:(discriminate)).
    change (py_join sep (p :: q :: rest')) with (p ++ sep ++ py_join sep (q :: rest')).
    rewrite !length_app, !Nat2Z.inj_add, IH.
    cbn [foldr length]. lia.
Qed.

Lemma extract_text_partial (pages : list pystr) :
  partial (extract_text pages) = true <-> MAX_CHARS < py_len (py_join [10%N] pages).
Proof.
  unfold extract_text.
  destruct (MAX_CHARS <? py_len (py_join [10%N] pages)) eqn:E; cbn [partial].
  - apply Z.ltb_lt in E. tauto.
  - apply Z.ltb_ge in E. split; [discriminate | lia].
Qed.

(** X1: whatever the pages, the text returned is a prefix of the joined
    text of at most 10,000 characters, [charCount] is its length, and
    [partial] is false exactly when the text returned is the whole joined
    text. *)
Theorem extract_text_is_bounded_prefix (pages : list pystr) :
  let full := py_join [10%N] pages in
  let r := extract_text pages in
  0 <= charCount r <= MAX_CHARS
  /\ charCount r = py_len (text r)
  /\ text r `prefix_of` full
  /\ (partial r = false <-> text r = full)
  /\ (partial r = true <-> MAX_CHARS < py_len full).
Proof.
  cbv zeta. unfold extract_text. set (full := py_join [10%N] pages).
  assert (Hnn : 0 <= py_len full) by (unfold py_len; lia).
  unfold MAX_CHARS in *.
  destruct (10000 <? py_len full) eqn:E; cbn [text partial charCount].
  - apply Z.ltb_lt in E. rewrite py_len_prefix by lia.
    split; [lia|]. split; [reflexivity|]. split.
    + exists (skipn (Z.to_nat 10000) full). unfold py_prefix.
      symmetry. apply firstn_skipn.
    + split; [|tauto]. split; [discriminate|]. intros Heq.
      assert (py_len (py_prefix 10000 full) = 10000) by (apply py_len_prefix; lia).
      rewrite Heq in *. lia.
  - apply Z.ltb_ge in E. split; [lia|]. split; [reflexivity|]. split; [reflexivity|].
    split; [tauto|]. split; [discriminate | lia].
Qed.

(** X2: a document without pages gives the empty text, and one with pages
    is cut exactly when the lengths of its page texts plus one separator
    between consecutive pages exceed 10,000. *)
Theorem extract_text_partial_by_page_lengths (pages : list pystr) :
  (pages = [] ->
     extract_text pages = {| text := []; partial := false; charCount := 0 |})
  /\ (pages <> [] ->
      (partial (extract_text pages) = true <->
       10000 < foldr (fun p n => py_len p + n) 0 pages + (Z.of_nat (length pages) - 1))).
Proof.
  split.
  - intros ->. reflexivity.
  - intros Hne.
    rewrite extract_text_partial, (py_join_length [10%N] pages Hne). unfold MAX_CHARS, py_len. simpl length.
    lia.
Qed.

(** ** The extension test *)

Lemma lower_from_app (U : UnicodeData) (whole a b : pystr) (i : nat) :
  lower_from U whole i (a ++ b)
  = lower_from U whole i a ++ lower_from U whole (i + length a) b.
Proof.
  revert i. induction a as [|c a IH]; intros i; simpl.
  - rewrite Nat.add_0_r. reflexivity.
  - rewrite IH, <- (assoc_L (++)). do 3 f_equal. lia.
Qed.

Lemma lower_from_ascii (U : UnicodeData) (whole s : pystr) (i : nat) :
  Forall (fun c => (c < 128)%N) s -> lower_from U whole i s = map ascii_lower s.
Proof.
  intros H. revert i. induction H as [|c s Hc _ IH]; intros i; simpl; [reflexivity|].
  apply N.ltb_lt in Hc. rewrite Hc, IH. reflexivity.
Qed.

Lemma py_endswith_app (a b : pystr) : py_endswith (a ++ b) b = true.
Proof.
  unfold py_endswith, pystr_eqb. rewrite length_app.
  replace (length a + length b - length b)%nat with (length a) by lia.
  rewrite skipn_app, skipn_all, Nat.sub_diag. simpl.
  rewrite bool_decide_eq_true_2 by reflexivity.
  apply Nat.leb_le. lia.
Qed.

Lemma py_lower_endswith (U : UnicodeData) (name ext : pystr) :
  Forall (fun c => (c < 128)%N) ext ->
  py_endswith (py_lower U (name ++ ext)) (map ascii_lower ext) = true.
Proof.
  intros Hascii. unfold py_lower.
  rewrite lower_from_app, (lower_from_ascii U _ ext _ Hascii). apply py_endswith_app.
Qed.

(** X3: the extension test ignores letter case: a name that ends in [.pdf]
    written in any mix of upper and lower case is taken by [/extract] and
    [/pdf-compress], and one that ends so in [.csv] or [.xlsx] by
    [/excel-cleaner], whatever precedes the extension. *)
Theorem extension_test_ignores_case (U : UnicodeData) (r : request) (name ext : pystr) :
  Forall (fun c => (c < 128)%N) ext ->
  match r with
  | PostExtract _ | PostPdfCompress _ _ => map ascii_lower ext = py ".pdf"
  | PostExcelCleaner _ _ =>
      map ascii_lower ext = py ".csv" \/ map ascii_lower ext = py ".xlsx"
  end ->
  accepts_extension U r (name ++ ext) = true.
Proof.
  intros Hascii Hext. pose proof (py_lower_endswith U name ext Hascii) as H.
  unfold accepts_extension. destruct r as [file|file f|file f].
  - rewrite <- Hext. exact H.
  - apply orb_true_iff. destruct Hext as [Hext|Hext]; [left | right];
      rewrite <- Hext; exact H.
  - rewrite <- Hext. exact H.
Qed.

Lemma extension_test_ignores_case_witness :
  accepts_extension ucd_plain (PostExcelCleaner None ∅) (py "Leads 2024.XlSx") = true.
Proof.
  apply (extension_test_ignores_case ucd_plain (PostExcelCleaner None ∅)
           (py "Leads 2024") (py ".XlSx")).
  - repeat constructor.
  - right. reflexivity.
Defined.

(** ** The switches of [/excel-cleaner] *)

Lemma form_flag_iff (v : option pystr) :
  form_flag v = true <-> v = None \/ v = Some (py "true").
Proof.
  unfold form_flag, pystr_eqb. rewrite bool_decide_eq_true.
  destruct v as [s|]; cbn [default from_option id].
  - split; [intros ->; auto | intros [H|H]; congruence].
  - split; auto.
Qed.

(** X4: each of the three switches is on exactly when its form field is
    missing or is the string [true] itself; any other text, [True], [1] and
    [false] among them, turns it off. *)
Theorem read_options_switches (f : form) :
  let on (name : pystr) := f !! name = None \/ f !! name = Some (py "true") in
  (remove_duplicates (read_options f) = true <-> on (py "removeDuplicates"))
  /\ (clean_emails (read_options f) = true <-> on (py "cleanEmails"))
  /\ (sanitize_characters (read_options f) = true <-> on (py "sanitizeCharacters"))
  /\ form_flag (Some (py "True")) = false
  /\ form_flag (Some (py "1")) = false
  /\ form_flag (Some (py "false")) = false.
Proof.
  cbv zeta. unfold read_options; cbn [remove_duplicates clean_emails sanitize_characters].
  rewrite !form_flag_iff. repeat split; try tauto; vm_compute; reflexivity.
Qed.

(** ** Case, white space and the sanitizing class on ASCII *)

Lemma in_range_out (lo hi c : N) : (c < lo \/ hi < c)%N -> in_range lo hi c = false.
Proof.
  intros H. unfold in_range. apply andb_false_iff.
  destruct H; [left | right]; apply N.leb_gt; assumption.
Qed.

Lemma in_range_in (lo hi c : N) : (lo <= c <= hi)%N -> in_range lo hi c = true.
Proof.
  intros [H1 H2]. unfold in_range. apply andb_true_iff. split; apply N.leb_le; assumption.
Qed.

Lemma in_range_iff (lo hi c : N) : in_range lo hi c = true <-> (lo <= c <= hi)%N.
Proof. unfold in_range. rewrite andb_true_iff, !N.leb_le. reflexivity. Qed.

Lemma py_isspace_printable (c : N) : (33 <= c <= 127)%N -> py_isspace c = false.
Proof.
  intros H. unfold py_isspace.
  rewrite !in_range_out by lia.
  rewrite !(proj2 (N.eqb_neq c _)) by lia. reflexivity.
Qed.

Lemma ascii_lower_cases (c : N) :
  ascii_lower c = c \/ ((65 <= c <= 90)%N /\ ascii_lower c = (c + 32)%N).
Proof.
  unfold ascii_lower. destruct (in_range 65 90 c) eqn:E; [right | left; reflexivity].
  apply in_range_iff in E. auto.
Qed.

Lemma ascii_upper_cases (c : N) :
  ascii_upper c = c \/ ((97 <= c <= 122)%N /\ ascii_upper c = (c - 32)%N).
Proof.
  unfold ascii_upper. destruct (in_range 97 122 c) eqn:E; [right | left; reflexivity].
  apply in_range_iff in E. auto.
Qed.

Lemma ascii_isalnum_letter (c : N) :
  (65 <= c <= 90)%N \/ (97 <= c <= 122)%N -> ascii_isalnum c = true.
Proof.
  intros H. unfold ascii_isalnum. apply orb_true_iff.
  destruct H as [H|H]; [left; apply orb_true_iff; right | right]; apply in_range_in; exact H.
Qed.

Lemma sanitize_keeps_letter (U : UnicodeData) (c : N) :
  (65 <= c <= 90)%N \/ (97 <= c <= 122)%N -> sanitize_keeps U c = true.
Proof.
  intros H. unfold sanitize_keeps, re_word, py_isalnum.
  replace (c <? 128)%N with true by (symmetry; apply N.ltb_lt; lia).
  rewrite (ascii_isalnum_letter c H). reflexivity.
Qed.

Lemma case_stable_ascii : case_stable (fun c => (c < 128)%N).
Proof.
  intros c Hc. destruct (ascii_lower_cases c) as [->|[? ->]];
    destruct (ascii_upper_cases c) as [->|[? ->]]; lia.
Qed.

Lemma case_stable_not_space : case_stable (fun c => py_isspace c = false).
Proof.
  intros c Hc. split.
  - destruct (ascii_lower_cases c) as [->|[? ->]]; [exact Hc|].
    apply py_isspace_printable. lia.
  - destruct (ascii_upper_cases c) as [->|[? ->]]; [exact Hc|].
    apply py_isspace_printable. lia.
Qed.

Lemma case_stable_kept (U : UnicodeData) : case_stable (fun c => sanitize_keeps U c = true).
Proof.
  intros c Hc. split.
  - destruct (ascii_lower_cases c) as [->|[? ->]]; [exact Hc|].
    apply sanitize_keeps_letter. lia.
  - destruct (ascii_upper_cases c) as [->|[? ->]]; [exact Hc|].
    apply sanitize_keeps_letter. lia.
Qed.

Lemma case_stable_not_at : case_stable (fun c => c <> 64%N).
Proof.
  intros c Hc. destruct (ascii_lower_cases c) as [->|[? ->]];
    destruct (ascii_upper_cases c) as [->|[? ->]]; lia.
Qed.

Lemma email_char_iff (c : N) : email_char c = true <-> c <> 64%N /\ py_isspace c = false.
Proof.
  unfold email_char. rewrite negb_true_iff, orb_false_iff, N.eqb_neq. reflexivity.
Qed.

Lemma case_stable_email_char : case_stable (fun c => email_char c = true).
Proof.
  intros c Hc. apply email_char_iff in Hc as [H1 H2].
  destruct (case_stable_not_at c H1), (case_stable_not_space c H2).
  split; apply email_char_iff; auto.
Qed.

Lemma ascii_lower_idem (c : N) : ascii_lower (ascii_lower c) = ascii_lower c.
Proof.
  destruct (ascii_lower_cases c) as [E|[? E]]; [congruence|]. rewrite E.
  unfold ascii_lower. rewrite in_range_out by lia. reflexivity.
Qed.

Lemma ascii_upper_idem (c : N) : ascii_upper (ascii_upper c) = ascii_upper c.
Proof.
  destruct (ascii_upper_cases c) as [E|[? E]]; [congruence|]. rewrite E.
  unfold ascii_upper. rewrite in_range_out by lia. reflexivity.
Qed.

Lemma py_lower_ascii (U : UnicodeData) (s : pystr) :
  is_ascii s -> py_lower U s = map ascii_lower s.
Proof. apply lower_from_ascii. Qed.

Lemma py_capitalize_ascii (U : UnicodeData) (w : pystr) :
  is_ascii w ->
  py_capitalize U w
  = match w with [] => [] | c :: w' => ascii_upper c :: map ascii_lower w' end.
Proof.
  intros H. destruct H as [|c w' Hc Hw]; [reflexivity|]. unfold py_capitalize.
  apply N.ltb_lt in Hc. rewrite Hc, (lower_from_ascii U _ w' _ Hw). reflexivity.
Qed.

Lemma map_lower_stable (P : N -> Prop) (s : pystr) :
  case_stable P -> Forall P s -> Forall P (map ascii_lower s).
Proof.
  intros HP H. induction H as [|c s Hc _ IH]; simpl; constructor; [apply HP, Hc | exact IH].
Qed.

Lemma py_capitalize_stable (U : UnicodeData) (P : N -> Prop) (w : pystr) :
  case_stable P -> is_ascii w -> Forall P w -> Forall P (py_capitalize U w).
Proof.
  intros HP Ha H. rewrite py_capitalize_ascii by exact Ha.
  destruct H as [|c w' Hc Hw]; constructor; [apply HP, Hc | apply map_lower_stable; assumption].
Qed.

Lemma py_capitalize_idem (U : UnicodeData) (w : pystr) :
  is_ascii w -> py_capitalize U (py_capitalize U w) = py_capitalize U w.
Proof.
  intros Ha. rewrite (py_capitalize_ascii U (py_capitalize U w)).
  - rewrite py_capitalize_ascii by exact Ha. destruct w as [|c w']; [reflexivity|].
    rewrite ascii_upper_idem, map_map. f_equal. apply map_ext. intros. apply ascii_lower_idem.
  - apply py_capitalize_stable; [apply case_stable_ascii | exact Ha | exact Ha].
Qed.

Lemma py_capitalize_token (U : UnicodeData) (w : pystr) :
  is_ascii w -> is_token w -> is_token (py_capitalize U w).
Proof.
  intros Ha [Hne Hns]. split.
  - rewrite py_capitalize_ascii by exact Ha. destruct w; [congruence | discriminate].
  - apply py_capitalize_stable; [apply case_stable_not_space | exact Ha | exact Hns].
Qed.

(** ** [split], [join] and [strip] *)

Lemma split_from_Forall (P : N -> Prop) (cur s : pystr) :
  Forall P cur -> Forall P s -> Forall (Forall P) (split_from cur s).
Proof.
  intros Hcur Hs. revert cur Hcur. induction Hs as [|c s Hc _ IH]; intros cur Hcur; simpl.
  - destruct cur; [constructor|]. constructor; [|constructor].
    apply List.Forall_rev. exact Hcur.
  - destruct (py_isspace c).
    + destruct cur; [apply IH; constructor|].
      constructor; [apply List.Forall_rev; exact Hcur | apply IH; constructor].
    + apply IH. constructor; assumption.
Qed.

Lemma split_from_tokens (cur s : pystr) :
  Forall (fun c => py_isspace c = false) cur ->
  Forall is_token (split_from cur s).
Proof.
  revert cur. induction s as [|c s IH]; intros cur Hcur; simpl.
  - destruct cur as [|a cur']; [constructor|]. constructor; [|constructor]. split.
    + intros H. apply (f_equal (@length N)) in H. rewrite length_rev in H. discriminate H.
    + apply List.Forall_rev. exact Hcur.
  - destruct (py_isspace c) eqn:E.
    + destruct cur as [|a cur']; [apply IH; constructor|].
      constructor; [|apply IH; constructor]. split.
      * intros H. apply (f_equal (@length N)) in H. rewrite length_rev in H. discriminate H.
      * apply List.Forall_rev. exact Hcur.
    + apply IH. constructor; assumption.
Qed.

Lemma py_split_tokens (s : pystr) : Forall is_token (py_split s).
Proof. apply split_from_tokens. constructor. Qed.

Lemma split_from_token_prefix (cur w rest : pystr) :
  Forall (fun c => py_isspace c = false) w ->
  split_from cur (w ++ rest) = split_from (rev w ++ cur) rest.
Proof.
  intros H. revert cur. induction H as [|c w Hc _ IH]; intros cur; simpl; [reflexivity|].
  rewrite Hc, IH, <- (assoc_L (++)). reflexivity.
Qed.

(** Splitting a join of tokens gives the tokens back. *)
Lemma py_split_join (ts : list pystr) :
  Forall is_token ts -> py_split (py_join [32%N] ts) = ts.
Proof.
  unfold py_split. intros H. induction H as [|w ts [Hne Hns] Hts IH]; [reflexivity|].
  assert (Hrev : rev w <> []).
  { intros E. apply (f_equal (@length N)) in E. rewrite length_rev in E.
    destruct w; [congruence | discriminate E]. }
  destruct ts as [|w2 ts'].
  - cbn [py_join]. rewrite <- (app_nil_r w) at 1.
    rewrite split_from_token_prefix by exact Hns. rewrite app_nil_r. simpl.
    destruct (rev w) eqn:E; [congruence|]. rewrite <- E, rev_involutive. reflexivity.
  - change (py_join [32%N] (w :: w2 :: ts'))
      with (w ++ 32%N :: py_join [32%N] (w2 :: ts')).
    rewrite split_from_token_prefix by exact Hns. rewrite app_nil_r.
    cbn [split_from]. change (py_isspace 32) with true. cbv iota.
    destruct (rev w) eqn:E; [congruence|]. rewrite <- E, rev_involutive, IH. reflexivity.
Qed.

Lemma py_join_Forall (P : N -> Prop) (sep : pystr) (ts : list pystr) :
  Forall P sep -> Forall (Forall P) ts -> Forall P (py_join sep ts).
Proof.
  intros Hsep H. induction H as [|w ts Hw Hts IH]; [constructor|].
  destruct ts as [|w2 ts']; [exact Hw|].
  change (py_join sep (w :: w2 :: ts')) with (w ++ sep ++ py_join sep (w2 :: ts')).
  apply Forall_app. split; [exact Hw|]. apply Forall_app. split; [exact Hsep | exact IH].
Qed.

Lemma py_strip_id (s : pystr) :
  (forall c s', s = c :: s' -> py_isspace c = false) ->
  (forall s' c, s = s' ++ [c] -> py_isspace c = false) ->
  py_strip s = s.
Proof.
  intros Hhead Hlast. destruct s as [|c s']; [reflexivity|].
  unfold py_strip. cbn [lstrip]. rewrite (Hhead c s' eq_refl).
  unfold rstrip. destruct (exists_last (l := c :: s') ltac:(discriminate)) as (t & a & E).
  rewrite E, rev_app_distr. cbn [rev app lstrip].
  rewrite (Hlast t a E). simpl. rewrite rev_involutive. reflexivity.
Qed.

Lemma py_join_tokens_head (ts : list pystr) (c : N) (s' : pystr) :
  Forall is_token ts -> py_join [32%N] ts = c :: s' -> py_isspace c = false.
Proof.
  intros H E. destruct H as [|w ts [Hne Hns] _]; [discriminate E|].
  destruct Hns as [|a w' Ha _]; [congruence|].
  destruct ts; cbn in E; injection E as -> _; exact Ha.
Qed.

Lemma py_join_tokens_last (ts : list pystr) (s' : pystr) (c : N) :
  Forall is_token ts -> py_join [32%N] ts = s' ++ [c] -> py_isspace c = false.
Proof.
  intros H. revert s'. induction H as [|w ts [Hne Hns] Hts IH]; intros s' E.
  - destruct s'; discriminate E.
  - destruct ts as [|w2 ts'].
    + cbn in E. subst w. apply Forall_app in Hns as [_ Hc].
      inversion Hc; assumption.
    + change (py_join [32%N] (w :: w2 :: ts'))
        with (w ++ 32%N :: py_join [32%N] (w2 :: ts')) in E.
      assert (Hj : py_join [32%N] (w2 :: ts') <> []).
      { inversion Hts as [|? ? [Hne2 _] _]; subst.
        destruct w2; [congruence|]. destruct ts'; discriminate. }
      destruct (exists_last Hj) as (t & a & Ej). rewrite Ej in E.
      change (w ++ 32%N :: t ++ [a]) with (w ++ (32%N :: t) ++ [a]) in E.
      rewrite (assoc_L (++)) in E. apply app_inj_tail in E as [_ <-].
      apply (IH t). exact Ej.
Qed.

Lemma py_strip_join (ts : list pystr) :
  Forall is_token ts -> py_strip (py_join [32%N] ts) = py_join [32%N] ts.
Proof.
  intros H. apply py_strip_id.
  - intros c s'. apply py_join_tokens_head. exact H.
  - intros s' c. apply py_join_tokens_last. exact H.
Qed.

Lemma py_strip_no_space (s : pystr) :
  Forall (fun c => py_isspace c = false) s -> py_strip s = s.
Proof.
  intros H. apply py_strip_id.
  - intros c s' ->. inversion H; assumption.
  - intros s' c ->. apply Forall_app in H as [_ H]. inversion H; assumption.
Qed.

Lemma sanitize_id (U : UnicodeData) (v : pystr) :
  Forall (fun c => sanitize_keeps U c = true) v -> sanitize U v = v.
Proof.
  intros H. unfold sanitize. induction H as [|c v Hc _ IH]; simpl; [reflexivity|].
  rewrite Hc, IH. reflexivity.
Qed.

Lemma sanitize_kept (U : UnicodeData) (v : pystr) :
  Forall (fun c => sanitize_keeps U c = true) (sanitize U v).
Proof.
  unfold sanitize. induction v as [|c v IH]; simpl; [constructor|].
  destruct (sanitize_keeps U c) eqn:E; [constructor; assumption | exact IH].
Qed.

Lemma py_in_false_iff (c : N) (s : pystr) :
  py_in c s = false <-> Forall (fun x => x <> c) s.
Proof.
  unfold py_in. induction s as [|a s IH]; simpl.
  - split; [constructor | reflexivity].
  - rewrite orb_false_iff, IH, N.eqb_neq. split.
    + intros [H1 H2]. constructor; [congruence | exact H2].
    + intros H. inversion H; subst. split; [congruence | assumption].
Qed.

Lemma lstrip_Forall (P : N -> Prop) (s : pystr) : Forall P s -> Forall P (lstrip s).
Proof.
  intros H. induction H as [|c s Hc Hs IH]; simpl; [constructor|].
  destruct (py_isspace c); [exact IH | constructor; assumption].
Qed.

Lemma py_strip_Forall (P : N -> Prop) (s : pystr) : Forall P s -> Forall P (py_strip s).
Proof.
  intros H. unfold py_strip, rstrip.
  apply List.Forall_rev, lstrip_Forall, List.Forall_rev, lstrip_Forall, H.
Qed.

Lemma sanitize_Forall (U : UnicodeData) (P : N -> Prop) (s : pystr) :
  Forall P s -> Forall P (sanitize U s).
Proof.
  intros H. unfold sanitize. induction H as [|c s Hc Hs IH]; simpl; [constructor|].
  destruct (sanitize_keeps U c); [constructor; assumption | exact IH].
Qed.

Lemma prepared_Forall (U : UnicodeData) (P : N -> Prop) (opts : options) (raw : pystr) :
  Forall P raw -> Forall P (prepared U opts raw).
Proof.
  intros H. rewrite prepared_sanitized.
  destruct (sanitize_characters opts);
    [apply sanitize_Forall, py_strip_Forall, H | apply py_strip_Forall, H].
Qed.

Lemma lstrip_all_space (s : pystr) :
  Forall (fun c => py_isspace c = true) s -> lstrip s = [].
Proof.
  intros H. induction H as [|c s Hc _ IH]; simpl; [reflexivity|]. rewrite Hc. exact IH.
Qed.

Lemma split_from_all_space (s : pystr) :
  Forall (fun c => py_isspace c = true) s -> split_from [] s = [].
Proof.
  intros H. induction H as [|c s Hc _ IH]; simpl; [reflexivity|]. rewrite Hc. exact IH.
Qed.

(** [clean_cell] on a present value, by its two branches. *)
Lemma clean_cell_unfold (U : UnicodeData) (opts : options) (raw : pystr) :
  clean_cell U opts (Some raw)
  = let value := prepared U opts raw in
    if clean_emails opts && py_in 64 value
    then if re_match_anchored email_re value then Some (py_lower U value) else None
    else Some (py_join [32%N] (map (py_capitalize U) (py_split value))).
Proof.
  unfold clean_cell. rewrite prepared_sanitized. cbv zeta.
  destruct (clean_emails opts && py_in 64 _); [|reflexivity].
  destruct (re_match_anchored email_re _); reflexivity.
Qed.

(** X5: cleaning makes a present cell absent only on the email branch: email
    cleaning is on, the stripped and sanitized value holds an [@], and that
    value is not of the shape [local@domain.tld]. Every other present cell
    stays present. *)
Theorem clean_cell_absent_only_for_bad_email (U : UnicodeData) (opts : options)
    (raw : pystr) :
  clean_cell U opts (Some raw) = None ->
  clean_emails opts = true
  /\ py_in 64 (prepared U opts raw) = true
  /\ ~ email_shape (prepared U opts raw).
Proof.
  rewrite clean_cell_unfold. cbv zeta. intros H.
  destruct (clean_emails opts); [|discriminate H].
  destruct (py_in 64 (prepared U opts raw)); [|discriminate H]. cbn [andb] in H.
  destruct (re_match_anchored email_re (prepared U opts raw)) eqn:E; [discriminate H|].
  split; [reflexivity|]. split; [reflexivity|]. intros Hs.
  assert (re_match_anchored email_re (prepared U opts raw) = true)
    by (apply re_match_anchored_email; left; exact Hs).
  congruence.
Qed.

Lemma clean_cell_absent_only_for_bad_email_witness :
  clean_cell ucd_plain default_options (Some (py "not-an-email@@x")) = None
  /\ py_in 64 (prepared ucd_plain default_options (py "not-an-email@@x")) = true.
Proof.
  split; [reflexivity|].
  apply (clean_cell_absent_only_for_bad_email ucd_plain default_options
           (py "not-an-email@@x") eq_refl).
Defined.

(** X6: a value left empty or all white space by stripping and sanitizing,
    such as the empty string, blanks, or only punctuation that sanitizing
    removes, is cleaned to the empty string, not to an absent cell. *)
Theorem clean_cell_blank_is_empty_string (U : UnicodeData) (opts : options)
    (raw : pystr) :
  Forall (fun c => py_isspace c = true) (prepared U opts raw) ->
  clean_cell U opts (Some raw) = Some [].
Proof.
  intros H. rewrite clean_cell_unfold. cbv zeta.
  assert (Hat : py_in 64 (prepared U opts raw) = false).
  { apply py_in_false_iff. eapply Forall_impl; [exact H|].
    intros c Hc ->. vm_compute in Hc. discriminate Hc. }
  rewrite Hat, andb_false_r. unfold py_split.
  rewrite (split_from_all_space _ H). reflexivity.
Qed.

Lemma clean_cell_blank_is_empty_string_witness :
  clean_cell ucd_plain default_options (Some (py " !!! ")) = Some []
  /\ clean_cell ucd_plain default_options (Some []) = Some [].
Proof.
  split.
  - apply (clean_cell_blank_is_empty_string ucd_plain default_options (py " !!! ")).
    vm_compute. constructor.
  - apply (clean_cell_blank_is_empty_string ucd_plain default_options []).
    vm_compute. constructor.
Defined.

(** ** Cleaning twice, on ASCII text *)

Lemma prepared_id (U : UnicodeData) (opts : options) (r : pystr) :
  py_strip r = r ->
  (sanitize_characters opts = true -> Forall (fun c => sanitize_keeps U c = true) r) ->
  prepared U opts r = r.
Proof.
  intros Hs Hk. rewrite prepared_sanitized, Hs.
  destruct (sanitize_characters opts); [apply sanitize_id; auto | reflexivity].
Qed.

Lemma prepared_kept (U : UnicodeData) (opts : options) (raw : pystr) :
  sanitize_characters opts = true ->
  Forall (fun c => sanitize_keeps U c = true) (prepared U opts raw).
Proof. intros H. rewrite prepared_sanitized, H. apply sanitize_kept. Qed.

Lemma map_capitalize_Forall (U : UnicodeData) (P : N -> Prop) (ts : list pystr) :
  case_stable P -> Forall is_ascii ts -> Forall (Forall P) ts ->
  Forall (Forall P) (map (py_capitalize U) ts).
Proof.
  intros HP Ha H. induction H as [|w ts Hw _ IH]; simpl; [constructor|].
  inversion Ha; subst. constructor; [apply py_capitalize_stable; assumption | auto].
Qed.

Lemma map_capitalize_tokens (U : UnicodeData) (ts : list pystr) :
  Forall is_ascii ts -> Forall is_token ts -> Forall is_token (map (py_capitalize U) ts).
Proof.
  intros Ha H. induction H as [|w ts Hw _ IH]; simpl; [constructor|].
  inversion Ha; subst. constructor; [apply py_capitalize_token; assumption | auto].
Qed.

Lemma email_shape_lower (v : pystr) : email_shape v -> email_shape (map ascii_lower v).
Proof.
  intros (l & d & t & -> & Hl & Hd & Ht & Hall).
  exists (map ascii_lower l), (map ascii_lower d), (map ascii_lower t).
  rewrite !map_app. split; [reflexivity|].
  repeat split.
  - destruct l; [congruence | discriminate].
  - destruct d; [congruence | discriminate].
  - destruct t; [congruence | discriminate].
  - rewrite <- !map_app. apply map_lower_stable; [apply case_stable_email_char | exact Hall].
Qed.

Lemma email_shape_has_at (v : pystr) : email_shape v -> py_in 64 v = true.
Proof.
  intros (l & d & t & -> & _). unfold py_in. rewrite existsb_app. simpl.
  apply orb_true_r.
Qed.

Lemma email_shape_not_space (v : pystr) :
  email_shape v -> Forall (fun c => py_isspace c = false) v.
Proof.
  intros (l & d & t & -> & _ & _ & _ & Hall).
  assert (H : Forall (fun c => py_isspace c = false) (l ++ d ++ t)).
  { eapply Forall_impl; [exact Hall|]. intros c Hc. apply email_char_iff in Hc. tauto. }
  apply Forall_app in H as [Hl H]. apply Forall_app in H as [Hd Ht].
  apply Forall_app. split; [exact Hl|]. constructor; [reflexivity|].
  apply Forall_app. split; [exact Hd|]. constructor; [reflexivity | exact Ht].
Qed.

(** The title-casing branch gives a fixed point of cleaning. *)
Lemma clean_cell_title_fixed (U : UnicodeData) (opts : options) (v : pystr) :
  is_ascii v ->
  (sanitize_characters opts = true -> Forall (fun c => sanitize_keeps U c = true) v) ->
  clean_emails opts && py_in 64 v = false ->
  let r := py_join [32%N] (map (py_capitalize U) (py_split v)) in
  clean_cell U opts (Some r) = Some r.
Proof.
  intros Ha Hk Hbranch r.
  assert (Hts : Forall is_token (py_split v)) by apply py_split_tokens.
  assert (Hta : Forall is_ascii (py_split v))
    by (apply split_from_Forall; [constructor | exact Ha]).
  assert (Hts' : Forall is_token (map (py_capitalize U) (py_split v)))
    by (apply map_capitalize_tokens; assumption).
  assert (Hprep : prepared U opts r = r).
  { apply prepared_id; [apply py_strip_join; exact Hts'|].
    intros Hs. apply py_join_Forall; [repeat constructor|].
    apply map_capitalize_Forall; [apply case_stable_kept | exact Hta|].
    apply split_from_Forall; [constructor | apply Hk, Hs]. }
  rewrite clean_cell_unfold. cbv zeta. rewrite Hprep.
  assert (Hbranch' : clean_emails opts && py_in 64 r = false).
  { destruct (clean_emails opts); [|reflexivity]. cbn [andb] in *.
    apply py_in_false_iff. apply py_in_false_iff in Hbranch.
    apply py_join_Forall; [repeat constructor; discriminate|].
    apply map_capitalize_Forall; [apply case_stable_not_at | exact Hta|].
    apply split_from_Forall; [constructor | exact Hbranch]. }
  rewrite Hbranch'. unfold r at 1. rewrite (py_split_join _ Hts'), map_map.
  unfold r. do 2 apply f_equal. apply map_ext_in. intros w Hw.
  apply py_capitalize_idem. rewrite List.Forall_forall in Hta. apply Hta, Hw.
Qed.

(** The email branch on a value of the shape gives a fixed point. *)
Lemma clean_cell_email_fixed (U : UnicodeData) (opts : options) (v : pystr) :
  is_ascii v ->
  (sanitize_characters opts = true -> Forall (fun c => sanitize_keeps U c = true) v) ->
  clean_emails opts = true ->
  email_shape v ->
  clean_cell U opts (Some (py_lower U v)) = Some (py_lower U v).
Proof.
  intros Ha Hk Hce Hshape. rewrite (py_lower_ascii U v Ha).
  set (r := map ascii_lower v).
  assert (Hra : is_ascii r) by (apply map_lower_stable; [apply case_stable_ascii | exact Ha]).
  assert (Hrs : email_shape r) by (apply email_shape_lower; exact Hshape).
  assert (Hprep : prepared U opts r = r).
  { apply prepared_id; [apply py_strip_no_space, email_shape_not_space, Hrs|].
    intros Hs. apply map_lower_stable; [apply case_stable_kept | apply Hk, Hs]. }
  rewrite clean_cell_unfold. cbv zeta. rewrite Hprep, Hce, (email_shape_has_at r Hrs).
  cbn [andb].
  rewrite (proj2 (re_match_anchored_email r)) by (left; exact Hrs).
  rewrite (py_lower_ascii U r Hra). unfold r. rewrite map_map. apply f_equal.
  apply map_ext. intros. apply ascii_lower_idem.
Qed.

(** X7: on ASCII text cleaning is idempotent whenever the first cleaning
    does not end in a line feed: the title-casing branch, the email branch
    on a value of the shape, and an absent result all clean to themselves.
    The one exception is the result that keeps a trailing line feed. *)
Theorem clean_cell_idempotent_on_ascii (U : UnicodeData) (opts : options) (raw : pystr) :
  is_ascii raw ->
  (forall r, clean_cell U opts (Some raw) <> Some (r ++ [10%N])) ->
  clean_cell U opts (clean_cell U opts (Some raw)) = clean_cell U opts (Some raw).
Proof.
  intros Ha Hnl. rewrite (clean_cell_unfold U opts raw) in *. cbv zeta in *.
  set (v := prepared U opts raw) in *.
  assert (Hva : is_ascii v) by (apply prepared_Forall; exact Ha).
  assert (Hk : sanitize_characters opts = true ->
               Forall (fun c => sanitize_keeps U c = true) v)
    by (apply prepared_kept).
  destruct (clean_emails opts && py_in 64 v) eqn:Hb.
  - apply andb_true_iff in Hb as [Hce _].
    destruct (re_match_anchored email_re v) eqn:Hm; [|reflexivity].
    apply re_match_anchored_email in Hm as [Hs|(v' & Hv & _)].
    + apply clean_cell_email_fixed; assumption.
    + exfalso. apply (Hnl (map ascii_lower v')).
      rewrite (py_lower_ascii U v Hva), Hv, map_app. reflexivity.
  - apply clean_cell_title_fixed; assumption.
Qed.

Lemma clean_cell_idempotent_on_ascii_witness :
  clean_cell ucd_plain default_options (Some (py "  jean-pierre DUPONT!!  "))
  = Some (py "Jean-pierre Dupont")
  /\ clean_cell ucd_plain default_options (Some (py "Jean-pierre Dupont"))
     = Some (py "Jean-pierre Dupont").
Proof.
  assert (H : clean_cell ucd_plain default_options (Some (py "  jean-pierre DUPONT!!  "))
              = Some (py "Jean-pierre Dupont")) by reflexivity.
  split; [exact H|]. rewrite <- H.
  apply (clean_cell_idempotent_on_ascii ucd_plain default_options
           (py "  jean-pierre DUPONT!!  ")).
  - vm_compute. repeat constructor.
  - intros r Hr. rewrite H in Hr. injection Hr as Hr.
    apply (f_equal (@last N)) in Hr. rewrite last_snoc in Hr. vm_compute in Hr.
    discriminate Hr.
Defined.

Lemma py_split_token (w : pystr) : is_token w -> py_split w = [w].
Proof.
  intros Hw. apply (py_split_join [w]). constructor; [exact Hw | constructor].
Qed.

(** X8: on ASCII text, a result of cleaning that does not end in a line
    feed is white-space normalized: it is the single-space join of its own
    tokens, and stripping leaves it as it is. *)
Theorem clean_cell_normalized_on_ascii (U : UnicodeData) (opts : options)
    (raw r : pystr) :
  is_ascii raw ->
  clean_cell U opts (Some raw) = Some r ->
  (forall r', r <> r' ++ [10%N]) ->
  py_join [32%N] (py_split r) = r /\ py_strip r = r.
Proof.
  intros Ha Hr Hnl. rewrite clean_cell_unfold in Hr. cbv zeta in Hr.
  set (v := prepared U opts raw) in *.
  assert (Hva : is_ascii v) by (apply prepared_Forall; exact Ha).
  destruct (clean_emails opts && py_in 64 v).
  - destruct (re_match_anchored email_re v) eqn:Hm; [|discriminate Hr].
    injection Hr as <-. rewrite (py_lower_ascii U v Hva) in *.
    apply re_match_anchored_email in Hm as [Hs|(v' & Hv & _)].
    + apply email_shape_lower in Hs.
      pose proof (email_shape_not_space _ Hs) as Hns.
      assert (Htok : is_token (map ascii_lower v)).
      { split; [|exact Hns]. destruct Hs as (l & d & t & -> & _).
        destruct l; discriminate. }
      rewrite (py_split_token _ Htok). split; [reflexivity|].
      apply py_strip_no_space. exact Hns.
    + exfalso. apply (Hnl (map ascii_lower v')). rewrite Hv, map_app. reflexivity.
  - injection Hr as <-.
    assert (Hts' : Forall is_token (map (py_capitalize U) (py_split v))).
    { apply map_capitalize_tokens; [|apply py_split_tokens].
      apply split_from_Forall; [constructor | exact Hva]. }
    rewrite (py_split_join _ Hts'). split; [reflexivity | apply py_strip_join; exact Hts'].
Qed.

Lemma clean_cell_normalized_on_ascii_witness :
  py_join [32%N] (py_split (py "Jean-pierre Dupont")) = py "Jean-pierre Dupont".
Proof.
  apply (clean_cell_normalized_on_ascii ucd_plain default_options
           (py "  jean-pierre   DUPONT!!  ") (py "Jean-pierre Dupont")).
  - vm_compute. repeat constructor.
  - reflexivity.
  - intros r' Hr. apply (f_equal (@last N)) in Hr. rewrite last_snoc in Hr.
    vm_compute in Hr. discriminate Hr.
Defined.

(** ** De-duplication, again *)

Lemma drop_from_fixed (seen l : list row) :
  NoDup l -> (forall r, r ∈ l -> r ∉ seen) -> drop_from seen l = l.
Proof.
  intros H. revert seen. induction H as [|r l Hr _ IH]; intros seen Hseen; [reflexivity|].
  cbn [drop_from]. rewrite bool_decide_eq_false_2 by (apply Hseen; left).
  f_equal. apply IH. intros x Hx. rewrite elem_of_cons. intros [->|Hs]; [exact (Hr Hx)|].
  apply (Hseen x); [right; exact Hx | exact Hs].
Qed.

Lemma drop_from_length (seen l : list row) : (length (drop_from seen l) <= length l)%nat.
Proof.
  revert seen. induction l as [|r l IH]; intros seen; simpl; [lia|].
  destruct (bool_decide (r ∈ seen)); [specialize (IH seen) | specialize (IH (r :: seen))];
    simpl; lia.
Qed.

(** X9: with [removeDuplicates] on, the table comes back as its cleaned rows,
    unchanged, exactly when no two cleaned rows are equal; removing
    duplicates from the result again changes nothing. *)
Theorem clean_rows_fixed_iff_distinct (U : UnicodeData) (opts : options)
    (table : list row) :
  remove_duplicates opts = true ->
  let cleaned := map (map (clean_cell U opts)) table in
  (clean_rows U opts table = cleaned <-> NoDup cleaned)
  /\ drop_duplicates (clean_rows U opts table) = clean_rows U opts table.
Proof.
  intros Hopt cleaned. unfold clean_rows. rewrite Hopt. fold cleaned.
  unfold drop_duplicates. split.
  - split.
    + intros H. rewrite <- H. apply drop_from_NoDup.
    + intros H. apply drop_from_fixed; [exact H|]. intros r _. apply not_elem_of_nil.
  - apply drop_from_fixed; [apply drop_from_NoDup|]. intros r _. apply not_elem_of_nil.
Qed.

Lemma clean_rows_fixed_iff_distinct_witness :
  clean_rows ucd_plain default_options [[Some (py "ann")]; [Some (py "bob")]]
  = [[Some (py "Ann")]; [Some (py "Bob")]].
Proof.
  destruct (clean_rows_fixed_iff_distinct ucd_plain default_options
              [[Some (py "ann")]; [Some (py "bob")]] eq_refl) as [[_ H] _].
  rewrite H; [reflexivity|]. vm_compute.
  repeat constructor; rewrite ?elem_of_cons, ?elem_of_nil; intros ?; intuition discriminate.
Defined.

(** X10: cleaning never changes the number of cells of a row: every row
    returned is the cell-by-cell cleaning of a row given. Without
    [removeDuplicates] the rows correspond one to one, in order; with it
    there are at most as many rows, and the first row given always stays
    first. *)
Theorem clean_rows_shape (U : UnicodeData) (opts : options) (table : list row) :
  (forall r, r ∈ clean_rows U opts table ->
     exists r0, r0 ∈ table /\ r = map (clean_cell U opts) r0 /\ length r = length r0)
  /\ (length (clean_rows U opts table) <= length table)%nat
  /\ (remove_duplicates opts = false ->
      clean_rows U opts table = map (map (clean_cell U opts)) table)
  /\ head (clean_rows U opts table) = map (clean_cell U opts) <$> head table.
Proof.
  unfold clean_rows, drop_duplicates. set (cleaned := map (map (clean_cell U opts)) table).
  assert (Hin : forall r, r ∈ cleaned ->
            exists r0, r0 ∈ table /\ r = map (clean_cell U opts) r0 /\ length r = length r0).
  { intros r Hr. apply list_elem_of_In, in_map_iff in Hr as (r0 & <- & Hr0).
    exists r0. rewrite length_map. split; [apply list_elem_of_In, Hr0 | auto]. }
  assert (Hlen : length cleaned = length table) by apply length_map.
  destruct (remove_duplicates opts).
  - split; [intros r Hr; apply Hin; apply drop_from_elem in Hr; tauto|].
    split; [rewrite <- Hlen; apply drop_from_length|]. split; [discriminate|].
    unfold cleaned. destruct table as [|r0 rest]; [reflexivity|]. cbn [map drop_from].
    rewrite bool_decide_eq_false_2 by apply not_elem_of_nil. reflexivity.
  - split; [exact Hin|]. split; [lia|]. split; [reflexivity|].
    unfold cleaned. destruct table; reflexivity.
Qed.

(** ** The hook, exactly *)

Lemma foldr_delete_lookup (d : gmap pystr entry) (l : list (pystr * entry)) (name : pystr) :
  foldr (fun kv m => delete kv.1 m) d l !! name
  = if bool_decide (name ∈ map fst l) then None else d !! name.
Proof.
  induction l as [|[k e] l IH]; cbn [foldr map fst].
  - rewrite bool_decide_eq_false_2 by apply not_elem_of_nil. reflexivity.
  - destruct (decide (k = name)) as [->|Hne].
    + rewrite lookup_delete_eq, bool_decide_eq_true_2 by (left). reflexivity.
    + rewrite lookup_delete_ne by exact Hne. rewrite IH.
      destruct (bool_decide (name ∈ map fst l)) eqn:E.
      * apply bool_decide_eq_true in E.
        rewrite bool_decide_eq_true_2 by (right; exact E). reflexivity.
      * apply bool_decide_eq_false in E. rewrite bool_decide_eq_false_2; [reflexivity|].
        rewrite elem_of_cons. intros [?|?]; [congruence | contradiction].
Qed.

Lemma stale_listed (cutoff : Z) (d : gmap pystr entry) (name : pystr) :
  name ∈ map fst (filter (fun kv : pystr * entry => stale cutoff kv.2 = true) (map_to_list d))
  <-> exists e, d !! name = Some e /\ stale cutoff e = true.
Proof.
  rewrite list_elem_of_In, in_map_iff. split.
  - intros ([k e] & <- & Hin). apply list_elem_of_In, list_elem_of_filter in Hin as [Hs Hin].
    apply elem_of_map_to_list in Hin. exists e. auto.
  - intros (e & Hd & Hs). exists (name, e). split; [reflexivity|].
    apply list_elem_of_In, list_elem_of_filter. split; [exact Hs|].
    apply elem_of_map_to_list. exact Hd.
Qed.

(** What [static] holds after the hook. *)
Lemma cleanup_old_files_lookup (now : Z) (w : world) (d : gmap pystr entry) :
  static w = Some d ->
  exists w' d',
    cleanup_old_files now w = Some w'
    /\ static w' = Some d'
    /\ forall name,
         d' !! name
         = match d !! name with
           | Some e => if stale (now - 24 * 3600) e then None else Some e
           | None => None
           end.
Proof.
  intros Hd. unfold cleanup_old_files. rewrite Hd. cbn [mbind option_bind].
  eexists _, _. split; [reflexivity|]. split; [reflexivity|]. intros name.
  rewrite foldr_delete_lookup.
  destruct (bool_decide _) eqn:E.
  - apply bool_decide_eq_true, stale_listed in E as (e & -> & ->). reflexivity.
  - apply bool_decide_eq_false in E. destruct (d !! name) as [e|] eqn:He; [|reflexivity].
    destruct (stale (now - 24 * 3600) e) eqn:Hs; [|reflexivity].
    exfalso. apply E, stale_listed. eauto.
Qed.

Lemma static_path_inj (a b : pystr) : static_path a = static_path b -> a = b.
Proof. unfold static_path. apply app_inv_head. Qed.

Lemma cleanup_old_files_effects (now : Z) (w w' : world) (d : gmap pystr entry) :
  static w = Some d ->
  cleanup_old_files now w = Some w' ->
  forall e, e ∈ effects w' <->
    (exists name en, e = FsDelete (static_path name)
                     /\ d !! name = Some en /\ stale (now - 24 * 3600) en = true)
    \/ e ∈ effects w.
Proof.
  intros Hd Hc e. unfold cleanup_old_files in Hc. rewrite Hd in Hc.
  cbn [mbind option_bind] in Hc. injection Hc as <-. cbn [effects].
  rewrite elem_of_app, list_elem_of_In, <- in_rev, in_map_iff.
  split.
  - intros [([k en] & <- & Hin)|H]; [left | right; exact H].
    apply list_elem_of_In, list_elem_of_filter in Hin as [Hs Hin].
    apply elem_of_map_to_list in Hin. exists k, en. auto.
  - intros [(name & en & -> & Hn & Hs)|H]; [left | right; exact H].
    exists (name, en). split; [reflexivity|].
    apply list_elem_of_In, list_elem_of_filter. split; [exact Hs|].
    apply elem_of_map_to_list. exact Hn.
Qed.

(** X11: the hook removes from [static] exactly the regular files last
    modified strictly more than 24 hours before the request on which
    [os.remove] succeeds, and records a delete for each; directories, files
    modified 24 hours ago or later (the bound included) and files that
    cannot be removed stay as they are, and nothing is added. *)
Theorem cleanup_old_files_removes_exactly (now : Z) (w : world) (d : gmap pystr entry) :
  static w = Some d ->
  exists w' d',
    cleanup_old_files now w = Some w'
    /\ static w' = Some d'
    /\ (forall name mtime size,
          d !! name = Some (File mtime size true) -> mtime < now - 24 * 3600 ->
          d' !! name = None /\ FsDelete (static_path name) ∈ effects w')
    /\ (forall name mtime size removable,
          d !! name = Some (File mtime size removable) ->
          now - 24 * 3600 <= mtime \/ removable = false ->
          d' !! name = Some (File mtime size removable))
    /\ (forall name, d !! name = Some Dir -> d' !! name = Some Dir)
    /\ (forall name, d !! name = None -> d' !! name = None)
    /\ (forall name, FsDelete (static_path name) ∈ effects w' ->
          FsDelete (static_path name) ∈ effects w \/ d' !! name = None).
Proof.
  intros Hd. destruct (cleanup_old_files_lookup now w d Hd) as (w' & d' & Hc & Hs & Hl).
  pose proof (cleanup_old_files_effects now w w' d Hd Hc) as He.
  exists w', d'. split; [exact Hc|]. split; [exact Hs|].
  split; [|split; [|split; [|split]]].
  - intros name mtime size Hn Hold. split.
    + rewrite Hl, Hn. cbn [stale]. rewrite (proj2 (Z.ltb_lt _ _) Hold). reflexivity.
    + apply He. left. exists name, (File mtime size true). split; [reflexivity|].
      split; [exact Hn|]. cbn [stale]. rewrite (proj2 (Z.ltb_lt _ _) Hold). reflexivity.
  - intros name mtime size removable Hn Hkeep. rewrite Hl, Hn. cbn [stale].
    destruct Hkeep as [Hfresh| ->].
    + rewrite (proj2 (Z.ltb_ge _ _) Hfresh). reflexivity.
    + rewrite andb_false_r. reflexivity.
  - intros name Hn. rewrite Hl, Hn. reflexivity.
  - intros name Hn. rewrite Hl, Hn. reflexivity.
  - intros name Hin. apply He in Hin as [(n' & en & Heq & Hn & Hst)|Hin]; [right | left; exact Hin].
    assert (name = n') as -> by (apply static_path_inj; congruence).
    rewrite Hl, Hn, Hst. reflexivity.
Qed.

Lemma cleanup_old_files_removes_exactly_witness :
  exists w', cleanup_old_files 100000 world_with_old_file = Some w'
             /\ static w' = Some ∅ /\ effects w' = [FsDelete (py "static/old.pdf")].
Proof.
  destruct (cleanup_old_files_removes_exactly 100000 world_with_old_file
              {[ py "old.pdf" := File 0 10 true ]} eq_refl) as (w' & d' & Hc & _).
  exists w'. split; [exact Hc|].
  vm_compute in Hc. injection Hc as <-. split; reflexivity.
Defined.

Lemma cleanup_old_files_no_stale (now : Z) (w : world) (d : gmap pystr entry) :
  static w = Some d ->
  (forall name e, d !! name = Some e -> stale (now - 24 * 3600) e = false) ->
  cleanup_old_files now w = Some w.
Proof.
  intros Hd Hfresh. unfold cleanup_old_files. rewrite Hd. cbn [mbind option_bind].
  assert (Hnil : filter (fun kv : pystr * entry => stale (now - 24 * 3600) kv.2 = true)
                   (map_to_list d) = []).
  { destruct (filter _ _) as [|[name e] rest] eqn:E; [reflexivity|]. exfalso.
    assert (Hin : (name, e) ∈ filter
              (fun kv : pystr * entry => stale (now - 24 * 3600) kv.2 = true)
              (map_to_list d)) by (rewrite E; left).
    apply list_elem_of_filter in Hin as [Hstale Hin].
    apply elem_of_map_to_list in Hin. cbn [snd] in Hstale.
    rewrite (Hfresh _ _ Hin) in Hstale. discriminate Hstale. }
  rewrite Hnil. cbn. destruct w as [st eff]. cbn in *. subst st. reflexivity.
Qed.

(** X12: the hook is idempotent: run again at the same time on the world it
    left, it finds nothing to remove and changes nothing, and so does any
    run at an earlier time. *)
Theorem cleanup_old_files_idempotent (now earlier : Z) (w w' : world) :
  cleanup_old_files now w = Some w' ->
  earlier <= now ->
  cleanup_old_files now w' = Some w' /\ cleanup_old_files earlier w' = Some w'.
Proof.
  intros Hc Hle. destruct (static w) as [d|] eqn:Hd.
  2:{ unfold cleanup_old_files in Hc. rewrite Hd in Hc. discriminate Hc. }
  destruct (cleanup_old_files_lookup now w d Hd) as (w2 & d' & Hc2 & Hs & Hl).
  rewrite Hc in Hc2. injection Hc2 as <-.
  assert (Hns : forall t, t <= now ->
            forall name e, d' !! name = Some e -> stale (t - 24 * 3600) e = false).
  { intros t Ht name e He. rewrite Hl in He. destruct (d !! name) as [e0|]; [|discriminate He].
    destruct (stale (now - 24 * 3600) e0) eqn:E; [discriminate He|]. injection He as <-.
    destruct e0 as [mtime size removable|]; [|reflexivity]. cbn [stale] in *.
    apply andb_false_iff in E as [E| ->]; [|apply andb_false_r].
    apply Z.ltb_ge in E. apply andb_false_iff. left. apply Z.ltb_ge. lia. }
  split; apply (cleanup_old_files_no_stale _ w' d' Hs); apply Hns; lia.
Qed.

Lemma cleanup_old_files_idempotent_witness :
  cleanup_old_files 100000 {| static := Some ∅; effects := [FsDelete (py "static/old.pdf")] |}
  = Some {| static := Some ∅; effects := [FsDelete (py "static/old.pdf")] |}.
Proof.
  apply (cleanup_old_files_idempotent 100000 100000 world_with_old_file);
    [vm_compute; reflexivity | lia].
Defined.

(** ** [/pdf-compress], path by path *)

Lemma after_gs_input (sb : pystr -> pystr)
    (gs : list pystr -> gmap pystr entry -> gs_result) (env : environment)
    (up : upload) (f : form) (d : gmap pystr entry) :
  after_gs sb gs env up f d !! input_name sb env up
  = Some (File (saved_at env) (py_len (content up)) true).
Proof.
  unfold after_gs, with_input. destruct (produced _).
  - rewrite lookup_insert_ne by apply input_output_names_differ. apply lookup_insert_eq.
  - apply lookup_insert_eq.
Qed.


(** [compress_file] when [static] exists, as a decision on what Ghostscript
    did and on the two sizes. *)
Lemma compress_file_normal (sb : pystr -> pystr)
    (gs : list pystr -> gmap pystr entry -> gs_result) (env : environment)
    (up : upload) (f : form) (w : world) (d : gmap pystr entry) :
  static w = Some d ->
  let temp_input := static_path (input_name sb env up) in
  let command := compress_command sb env up f in
  let d2 := after_gs sb gs env up f d in
  let ran := Subprocess command :: FsWrite temp_input :: effects w in
  compress_file sb gs env up f w
  = if negb (exited_zero (gs command (with_input sb env up d)))
    then ({| static := Some d2; effects := ran |}, ReplyError 500 ConverterFailed)
    else match d2 !! output_name sb env up with
         | Some (File _ compressed_size _) =>
             let d3 := delete (input_name sb env up) d2 in
             match gain_percent (py_len (content up)) compressed_size with
             | Some gain =>
                 ({| static := Some d3;
                     effects := LogAppend (compress_mode f) gain (py_len (content up))
                                  compressed_size :: FsDelete temp_input :: ran |},
                  ReplyCompress
                    {| url := py "http://localhost:8000/static/" ++ output_name sb env up;
                       originalSize := py_len (content up);
                       compressedSize := compressed_size;
                       alert := alert_for (compress_mode f) (py_len (content up))
                                  compressed_size;
                       gainPercent := gain |})
             | None =>
                 ({| static := Some d3; effects := FsDelete temp_input :: ran |},
                  ReplyError 500 CompressionFailed)
             end
         | _ => ({| static := Some d2; effects := ran |}, ReplyError 500 CompressionFailed)
         end.
Proof.
  intros Hd. cbv zeta. unfold compress_file. cbv zeta. rewrite Hd.
  fold (input_name sb env up) (output_name sb env up) (compress_mode f).
  fold (with_input sb env up d). fold (compress_command sb env up f).
  fold (after_gs sb gs env up f d).
  destruct (negb _); [reflexivity|].
  rewrite after_gs_input.
  destruct (after_gs sb gs env up f d !! output_name sb env up) as [[mt c rm|]|];
    reflexivity.
Qed.



(** X14: an empty upload never succeeds: even when Ghostscript exits with
    zero and writes its output, dividing by the original size of 0 raises,
    the reply is 500 [CompressionFailed] and no line is logged; by then the
    input artifact has been removed and the output artifact stays in
    [static]. *)
Theorem pdf_compress_empty_upload (U : UnicodeData) (sb : pystr -> pystr)
    (gs : list pystr -> gmap pystr entry -> gs_result) (env : environment)
    (up : upload) (f : form) (w : world) (d : gmap pystr entry) (size : Z) :
  static w = Some d ->
  py_endswith (py_lower U (filename up)) (py ".pdf") = true ->
  content up = [] ->
  gs (compress_command sb env up f) (with_input sb env up d)
  = {| exited_zero := true; produced := Some size |} ->
  exists w' d',
    pdf_compress U sb gs env (Some up) f w = (w', ReplyError 500 CompressionFailed)
    /\ static w' = Some d'
    /\ d' !! input_name sb env up = None
    /\ d' !! output_name sb env up = Some (File (converted_at env) size true)
    /\ effects w' = [FsDelete (static_path (input_name sb env up));
                     Subprocess (compress_command sb env up f);
                     FsWrite (static_path (input_name sb env up))] ++ effects w.
Proof.
  intros Hd Hext Hempty Hgs. unfold pdf_compress. rewrite Hext. cbn [negb].
  rewrite (compress_file_normal sb gs env up f w d Hd). cbv zeta.
  unfold after_gs. rewrite Hgs. cbn [exited_zero produced negb].
  rewrite lookup_insert_eq. rewrite Hempty. change (py_len []) with 0.
  change (gain_percent 0 size) with (@None float).
  eexists _, _. split; [reflexivity|]. cbn [static effects]. split; [reflexivity|].
  split; [apply lookup_delete_eq|]. split; [|reflexivity].
  rewrite lookup_delete_ne by apply not_eq_sym, input_output_names_differ.
  apply lookup_insert_eq.
Qed.

Lemma pdf_compress_empty_upload_witness :
  exists w' d',
    pdf_compress ucd_plain (secure_basename (libraries_with (gs_writes 3))) (gs_writes 3)
      env_example (Some {| filename := py "doc.pdf"; content := [] |}) ∅ world_empty
    = (w', ReplyError 500 CompressionFailed)
    /\ static w' = Some d'
    /\ d' !! py "doc_input_u1.pdf" = None
    /\ d' !! py "doc_compressed_u2.pdf" = Some (File 100002 3 true).
Proof.
  destruct (pdf_compress_empty_upload ucd_plain
    (secure_basename (libraries_with (gs_writes 3))) (gs_writes 3) env_example
    {| filename := py "doc.pdf"; content := [] |} ∅ world_empty ∅ 3
    eq_refl eq_refl eq_refl eq_refl) as (w' & d' & Hr & Hs & Hi & Ho & _).
  exists w', d'. auto.
Defined.

(** X15: when Ghostscript exits with zero but leaves no file at the output
    path, reading the output size raises: the reply is 500
    [CompressionFailed] and, as [os.remove] is not reached, the input
    artifact stays in [static]. *)
Theorem pdf_compress_missing_output (U : UnicodeData) (sb : pystr -> pystr)
    (gs : list pystr -> gmap pystr entry -> gs_result) (env : environment)
    (up : upload) (f : form) (w : world) (d : gmap pystr entry) :
  static w = Some d ->
  py_endswith (py_lower U (filename up)) (py ".pdf") = true ->
  d !! output_name sb env up = None ->
  gs (compress_command sb env up f) (with_input sb env up d)
  = {| exited_zero := true; produced := None |} ->
  exists w' d',
    pdf_compress U sb gs env (Some up) f w = (w', ReplyError 500 CompressionFailed)
    /\ static w' = Some d'
    /\ d' !! input_name sb env up = Some (File (saved_at env) (py_len (content up)) true)
    /\ d' !! output_name sb env up = None
    /\ effects w' = [Subprocess (compress_command sb env up f);
                     FsWrite (static_path (input_name sb env up))] ++ effects w.
Proof.
  intros Hd Hext Hfresh Hgs. unfold pdf_compress. rewrite Hext. cbn [negb].
  rewrite (compress_file_normal sb gs env up f w d Hd). cbv zeta.
  unfold after_gs. rewrite Hgs. cbn [exited_zero produced negb].
  unfold with_input. rewrite lookup_insert_ne by apply not_eq_sym, input_output_names_differ.
  rewrite Hfresh.
  eexists _, _. split; [reflexivity|]. cbn [static effects]. split; [reflexivity|].
  split; [apply lookup_insert_eq|]. split; [|reflexivity].
  rewrite lookup_insert_ne by apply not_eq_sym, input_output_names_differ. exact Hfresh.
Qed.

Lemma pdf_compress_missing_output_witness :
  exists w' d',
    pdf_compress ucd_plain (secure_basename (libraries_with gs_fails))
      (fun _ _ => {| exited_zero := true; produced := None |})
      env_example (Some {| filename := py "doc.pdf"; content := [1; 2]%N |}) ∅ world_empty
    = (w', ReplyError 500 CompressionFailed)
    /\ static w' = Some d'
    /\ d' !! py "doc_input_u1.pdf" = Some (File 100001 2 true).
Proof.
  destruct (pdf_compress_missing_output ucd_plain
    (secure_basename (libraries_with gs_fails))
    (fun _ _ => {| exited_zero := true; produced := None |}) env_example
    {| filename := py "doc.pdf"; content := [1; 2]%N |} ∅ world_empty ∅
    eq_refl eq_refl eq_refl eq_refl) as (w' & d' & Hr & Hs & Hi & _).
  exists w', d'. auto.
Defined.

(** X16: a successful [/pdf-compress] performs, on top of what was done
    before and in this order, one write of the input artifact, one run of
    the command, one delete of the input artifact and one log line, which
    carries the mode and the sizes and gain of the reply; the url names the
    output artifact. *)
Theorem pdf_compress_success_effects (U : UnicodeData) (sb : pystr -> pystr)
    (gs : list pystr -> gmap pystr entry -> gs_result) (env : environment)
    (up : upload) (f : form) (w w' : world) (d : gmap pystr entry) (r : compression) :
  static w = Some d ->
  pdf_compress U sb gs env (Some up) f w = (w', ReplyCompress r) ->
  effects w'
  = [LogAppend (compress_mode f) (gainPercent r) (originalSize r) (compressedSize r);
     FsDelete (static_path (input_name sb env up));
     Subprocess (compress_command sb env up f);
     FsWrite (static_path (input_name sb env up))] ++ effects w
  /\ exited_zero (gs (compress_command sb env up f) (with_input sb env up d)) = true
  /\ static w' = Some (delete (input_name sb env up) (after_gs sb gs env up f d))
  /\ url r = py "http://localhost:8000/static/" ++ output_name sb env up.
Proof.
  intros Hd. unfold pdf_compress. destruct (negb _); [discriminate|].
  rewrite (compress_file_normal sb gs env up f w d Hd). cbv zeta.
  destruct (exited_zero _); cbn [negb]; [|discriminate].
  destruct (after_gs sb gs env up f d !! output_name sb env up) as [[mt c rm|]|];
    try discriminate.
  destruct (gain_percent _ c); [|discriminate].
  intros H. injection H as <- <-. cbn. auto.
Qed.

Lemma pdf_compress_success_effects_witness :
  exists w' r,
    pdf_compress ucd_plain (secure_basename (libraries_with (gs_writes 3))) (gs_writes 3)
      env_example (Some {| filename := py "doc.pdf"; content := [1; 2; 3; 4]%N |}) ∅
      world_empty = (w', ReplyCompress r)
    /\ length (effects w') = 4%nat.
Proof.
  eexists _, _. split; [vm_compute; reflexivity|].
  destruct (pdf_compress_success_effects ucd_plain
    (secure_basename (libraries_with (gs_writes 3))) (gs_writes 3) env_example
    {| filename := py "doc.pdf"; content := [1; 2; 3; 4]%N |} ∅ world_empty _ ∅ _
    eq_refl ltac:(vm_compute; reflexivity)) as (He & _).
  exact (eq_trans (f_equal (@length effect) He) eq_refl).
Defined.

(** ** Artifacts and the hook of later requests *)

Lemma cleanup_old_files_file (now : Z) (w : world) (d : gmap pystr entry)
    (name : pystr) (mtime size : Z) :
  static w = Some d ->
  d !! name = Some (File mtime size true) ->
  exists w' d',
    cleanup_old_files now w = Some w'
    /\ static w' = Some d'
    /\ (now - 24 * 3600 <= mtime -> d' !! name = Some (File mtime size true))
    /\ (mtime < now - 24 * 3600 ->
        d' !! name = None /\ FsDelete (static_path name) ∈ effects w').
Proof.
  intros Hd Hn. destruct (cleanup_old_files_lookup now w d Hd) as (w' & d' & Hc & Hs & Hl).
  exists w', d'. split; [exact Hc|]. split; [exact Hs|]. rewrite Hl, Hn. cbn [stale]. split.
  - intros H. rewrite (proj2 (Z.ltb_ge _ _) H). reflexivity.
  - intros H. rewrite (proj2 (Z.ltb_lt _ _) H). split; [reflexivity|].
    apply (cleanup_old_files_effects now w w' d Hd Hc). left.
    exists name, (File mtime size true). split; [reflexivity|]. split; [exact Hn|].
    cbn [stale]. rewrite (proj2 (Z.ltb_lt _ _) H). reflexivity.
Qed.

(** X17: the output artifact of a successful request, last modified when
    Ghostscript wrote it ([converted_at]), is kept with the size the reply
    gave by the hook of every later request whose clock reads at most 24
    hours past that modification time, and is deleted by the hook of the
    first request whose clock reads more. *)
Theorem compressed_output_kept_for_a_day (U : UnicodeData) (sb : pystr -> pystr)
    (gs : list pystr -> gmap pystr entry -> gs_result) (env : environment)
    (up : upload) (f : form) (w w' : world) (d : gmap pystr entry) (r : compression)
    (size now : Z) :
  static w = Some d ->
  pdf_compress U sb gs env (Some up) f w = (w', ReplyCompress r) ->
  produced (gs (compress_command sb env up f) (with_input sb env up d)) = Some size ->
  exists w'' d'',
    cleanup_old_files now w' = Some w''
    /\ static w'' = Some d''
    /\ compressedSize r = size
    /\ (now - 24 * 3600 <= converted_at env ->
        d'' !! output_name sb env up = Some (File (converted_at env) size true))
    /\ (converted_at env < now - 24 * 3600 ->
        d'' !! output_name sb env up = None
        /\ FsDelete (static_path (output_name sb env up)) ∈ effects w'').
Proof.
  intros Hd Hok Hprod. unfold pdf_compress in Hok. destruct (negb _); [discriminate|].
  rewrite (compress_file_normal sb gs env up f w d Hd) in Hok. cbv zeta in Hok.
  destruct (negb _); [discriminate|].
  assert (Hout : after_gs sb gs env up f d !! output_name sb env up
                 = Some (File (converted_at env) size true)).
  { unfold after_gs. rewrite Hprod. apply lookup_insert_eq. }
  rewrite Hout in Hok. destruct (gain_percent _ size) as [gain|]; [|discriminate].
  injection Hok as <- <-.
  destruct (cleanup_old_files_file now
              {| static := Some (delete (input_name sb env up) (after_gs sb gs env up f d));
                 effects := LogAppend (compress_mode f) gain (py_len (content up)) size
                            :: FsDelete (static_path (input_name sb env up))
                            :: Subprocess (compress_command sb env up f)
                            :: FsWrite (static_path (input_name sb env up)) :: effects w |}
              _ (output_name sb env up) (converted_at env) size eq_refl)
    as (w'' & d'' & Hc & Hs & Hkeep & Hgone).
  { rewrite lookup_delete_ne by apply not_eq_sym, input_output_names_differ. exact Hout. }
  exists w'', d''. cbn [compressedSize]. auto.
Qed.

Lemma compressed_output_kept_for_a_day_witness :
  exists w' r w'' d'',
    pdf_compress ucd_plain (secure_basename (libraries_with (gs_writes 3))) (gs_writes 3)
      env_example (Some {| filename := py "doc.pdf"; content := [1; 2; 3; 4]%N |}) ∅
      world_empty = (w', ReplyCompress r)
    /\ cleanup_old_files 186400 w' = Some w''
    /\ static w'' = Some d''
    /\ d'' !! py "doc_compressed_u2.pdf" = Some (File 100002 3 true).
Proof.
  eexists _, _.
  assert (H : pdf_compress ucd_plain (secure_basename (libraries_with (gs_writes 3)))
                (gs_writes 3) env_example
                (Some {| filename := py "doc.pdf"; content := [1; 2; 3; 4]%N |}) ∅
                world_empty = (_, ReplyCompress _)) by (vm_compute; reflexivity).
  destruct (compressed_output_kept_for_a_day ucd_plain
    (secure_basename (libraries_with (gs_writes 3))) (gs_writes 3) env_example
    {| filename := py "doc.pdf"; content := [1; 2; 3; 4]%N |} ∅ world_empty _ ∅ _ 3 186400
    eq_refl H eq_refl) as (w'' & d'' & Hc & Hs & _ & Hkeep & _).
  exists w'', d''. split; [exact H|]. split; [exact Hc|]. split; [exact Hs|].
  apply Hkeep. vm_compute. discriminate.
Defined.

(** X18: the input artifact left behind when Ghostscript exits with a
    non-zero status, last modified when [file.save] wrote it ([saved_at]),
    stays in [static] through the hook of every later request whose clock
    reads at most 24 hours past that modification time, and is deleted by
    the hook of the first request whose clock reads more. *)
Theorem leaked_input_reclaimed_after_a_day (U : UnicodeData) (sb : pystr -> pystr)
    (gs : list pystr -> gmap pystr entry -> gs_result) (env : environment)
    (up : upload) (f : form) (w : world) (d : gmap pystr entry) (now : Z) :
  static w = Some d ->
  py_endswith (py_lower U (filename up)) (py ".pdf") = true ->
  exited_zero (gs (compress_command sb env up f) (with_input sb env up d)) = false ->
  exists w' w'' d'',
    pdf_compress U sb gs env (Some up) f w = (w', ReplyError 500 ConverterFailed)
    /\ cleanup_old_files now w' = Some w''
    /\ static w'' = Some d''
    /\ (now - 24 * 3600 <= saved_at env ->
        d'' !! input_name sb env up = Some (File (saved_at env) (py_len (content up)) true))
    /\ (saved_at env < now - 24 * 3600 ->
        d'' !! input_name sb env up = None
        /\ FsDelete (static_path (input_name sb env up)) ∈ effects w'').
Proof.
  intros Hd Hext Hfail. unfold pdf_compress. rewrite Hext. cbn [negb].
  rewrite (compress_file_normal sb gs env up f w d Hd). cbv zeta. rewrite Hfail. cbn [negb].
  destruct (cleanup_old_files_file now
              {| static := Some (after_gs sb gs env up f d);
                 effects := Subprocess (compress_command sb env up f)
                            :: FsWrite (static_path (input_name sb env up)) :: effects w |}
              _ (input_name sb env up) (saved_at env) (py_len (content up)) eq_refl
              (after_gs_input sb gs env up f d))
    as (w'' & d'' & Hc & Hs & Hkeep & Hgone).
  eexists _, w'', d''. split; [reflexivity|]. auto.
Qed.

Lemma leaked_input_reclaimed_after_a_day_witness :
  exists w' w'' d'',
    pdf_compress ucd_plain (secure_basename (libraries_with gs_fails)) gs_fails env_example
      (Some {| filename := py "doc.pdf"; content := [1; 2; 3; 4]%N |}) ∅ world_empty
    = (w', ReplyError 500 ConverterFailed)
    /\ cleanup_old_files 186402 w' = Some w''
    /\ static w'' = Some d''
    /\ d'' !! py "doc_input_u1.pdf" = None.
Proof.
  destruct (leaked_input_reclaimed_after_a_day ucd_plain
    (secure_basename (libraries_with gs_fails)) gs_fails env_example
    {| filename := py "doc.pdf"; content := [1; 2; 3; 4]%N |} ∅ world_empty ∅ 186402
    eq_refl eq_refl eq_refl) as (w' & w'' & d'' & Hr & Hc & Hs & _ & Hgone).
  exists w', w'', d''. split; [exact Hr|]. split; [exact Hc|]. split; [exact Hs|].
  apply Hgone. vm_compute. reflexivity.
Defined.

(** ** Whole requests *)

(** X19: a request served through the hook never creates [static]: when
    the directory is missing the hook raises, the reply is 500 and nothing
    changes, so [os.makedirs] in [/pdf-compress] only ever finds the
    directory there; when it exists it still exists afterwards. *)
Theorem serve_never_creates_static (U : UnicodeData) (L : libraries) (env : environment)
    (content_length : Z) (r : request) (w w' : world) (rep : reply) :
  serve U L env content_length r w = (w', rep) ->
  (static w = None -> w' = w /\ rep = ReplyError 500 InternalServerError)
  /\ (is_Some (static w) -> is_Some (static w'))
  /\ (forall p, FsMkdir p ∈ effects w' -> FsMkdir p ∈ effects w).
Proof.
  intros Hserve. destruct (static w) as [d|] eqn:Hd.
  2:{ unfold serve, cleanup_old_files in Hserve. rewrite Hd in Hserve.
      injection Hserve as <- <-. split; [auto|]. split; [intros [? H]; discriminate H|auto]. }
  split; [discriminate|].
  destruct (cleanup_old_files_lookup (clock env) w d Hd) as (w1 & d1 & Hc & Hs1 & _).
  pose proof (cleanup_old_files_effects (clock env) w w1 d Hd Hc) as He.
  assert (Hmk : forall p, FsMkdir p ∈ effects w1 -> FsMkdir p ∈ effects w).
  { intros p Hp. apply He in Hp as [(n & en & Heq & _)|Hp]; [discriminate Heq | exact Hp]. }
  unfold serve in Hserve. rewrite Hc in Hserve.
  assert (Hsame : w' = w1 -> (is_Some (Some d) -> is_Some (static w'))
                             /\ (forall p, FsMkdir p ∈ effects w' -> FsMkdir p ∈ effects w)).
  { intros ->. rewrite Hs1. split; [eauto | exact Hmk]. }
  destruct (MAX_CONTENT_LENGTH <? content_length).
  { injection Hserve as <- _. apply Hsame. reflexivity. }
  destruct r as [file|file f|file f]; cbn [route] in Hserve.
  - injection Hserve as <- _. apply Hsame. reflexivity.
  - injection Hserve as <- _. apply Hsame. reflexivity.
  - unfold pdf_compress in Hserve. destruct file as [up|].
    2:{ injection Hserve as <- _. apply Hsame. reflexivity. }
    destruct (negb _).
    { injection Hserve as <- _. apply Hsame. reflexivity. }
    rewrite (compress_file_normal _ _ env up f w1 d1 Hs1) in Hserve. cbv zeta in Hserve.
    repeat match type of Hserve with
           | context [match ?x with _ => _ end] => destruct x
           | context [if ?x then _ else _] => destruct x
           end;
      injection Hserve as <- _; cbn [static effects];
      (split; [eauto|]); intros p Hp; apply Hmk; in_new_effects Hp; exact Hp.
Qed.

Lemma serve_never_creates_static_witness :
  serve ucd_plain (libraries_with (gs_writes 3)) env_example 1024
    (PostPdfCompress (Some {| filename := py "doc.pdf"; content := [1]%N |}) ∅)
    {| static := None; effects := [] |}
  = ({| static := None; effects := [] |}, ReplyError 500 InternalServerError).
Proof.
  destruct (serve_never_creates_static ucd_plain (libraries_with (gs_writes 3)) env_example
    1024 (PostPdfCompress (Some {| filename := py "doc.pdf"; content := [1]%N |}) ∅)
    {| static := None; effects := [] |} _ _ eq_refl) as (H & _).
  destruct (H eq_refl) as [_ _]. reflexivity.
Defined.

(** What [static] holds when the route is entered: what the hook left. *)
Lemma cleanup_old_files_static (now : Z) (w : world) :
  match static w with
  | Some d => exists w1 d1, cleanup_old_files now w = Some w1 /\ static w1 = Some d1
  | None => cleanup_old_files now w = None
  end.
Proof.
  destruct (static w) as [d|] eqn:Hd.
  - destruct (cleanup_old_files_lookup now w d Hd) as (w1 & d1 & Hc & Hs & _). eauto.
  - unfold cleanup_old_files. rewrite Hd. reflexivity.
Qed.

Ltac reply_case :=
  match goal with
  | _ => solve [discriminate | congruence]
  | H : ?x = ?x |- _ => clear H
  | H : is_Some None |- _ => destruct H as [? H]; discriminate H
  | H : _ || _ = false |- _ => apply orb_false_iff in H as [? ?]
  | H : _ /\ _ |- _ => destruct H
  | H : exists _, _ |- _ => destruct H
  | H : PostExtract _ = _ |- _ => injection H as ?; subst
  | H : PostExcelCleaner _ _ = _ |- _ => injection H as ? ?; subst
  | H : PostPdfCompress _ _ = _ |- _ => injection H as ? ?; subst
  | H : Some _ = Some _ |- _ => injection H as ?; subst
  | H : ReplyError _ _ = ReplyError _ _ |- _ => injection H as ? ?; subst
  | |- _ <-> _ => split; intro
  | |- _ /\ _ => split
  | |- _ || _ = false => apply orb_false_iff
  | |- _ \/ _ => first [left; reflexivity | left; assumption | right; assumption]
  | |- is_Some (Some _) => eexists; reflexivity
  | |- In _ _ => cbn [In]; tauto
  | |- exists _, _ => eexists
  | |- forall _, _ => intro
  | _ => first [ discriminate | reflexivity | eassumption | congruence | lia ]
  end.

(** X21: what a request is answered, and for which reason. Without
    [static] the hook raises and the reply is 500 [InternalServerError],
    whatever the request; with it, a body above the cap is answered 413
    [PayloadTooLarge], whatever the route. Within the cap: 400 [MissingFile]
    exactly for a request without file; 400 [UnsupportedFormat] exactly for
    a file whose extension the route does not take; 400
    [MalformedSpreadsheet] exactly for an [.xlsx] file that [read_excel]
    refuses; 500 [NormalizationFailed] exactly for a [.csv] file that
    [read_csv] refuses; 500 [ExtractionFailed] exactly for a PDF that
    [fitz] does not open; 500 [ConverterFailed] exactly for an accepted PDF
    on which Ghostscript exits with a non-zero status; [CompressionFailed]
    only with 500 on [/pdf-compress]. A reply is one of these nine errors,
    each with its one status, or the body of its own route. *)
Theorem serve_replies (U : UnicodeData) (L : libraries) (env : environment)
    (content_length : Z) (r : request) (w : world) :
  let rep := (serve U L env content_length r w).2 in
  let within := is_Some (static w) /\ content_length <= MAX_CONTENT_LENGTH in
  let ends up ext := py_endswith (py_lower U (filename up)) ext = true in
  (rep = ReplyError 500 InternalServerError <-> static w = None)
  /\ (rep = ReplyError 413 PayloadTooLarge
      <-> is_Some (static w) /\ MAX_CONTENT_LENGTH < content_length)
  /\ (rep = ReplyError 400 MissingFile <-> within /\ request_file r = None)
  /\ (rep = ReplyError 400 UnsupportedFormat
      <-> within /\ exists up, request_file r = Some up
                               /\ accepts_extension U r (filename up) = false)
  /\ (rep = ReplyError 400 MalformedSpreadsheet
      <-> within /\ exists up f, r = PostExcelCleaner (Some up) f
                                 /\ ~ ends up (py ".csv") /\ ends up (py ".xlsx")
                                 /\ read_excel L (content up) = None)
  /\ (rep = ReplyError 500 NormalizationFailed
      <-> within /\ exists up f, r = PostExcelCleaner (Some up) f
                                 /\ ends up (py ".csv")
                                 /\ read_csv L (content up) = None)
  /\ (rep = ReplyError 500 ExtractionFailed
      <-> within /\ exists up, r = PostExtract (Some up)
                               /\ ends up (py ".pdf")
                               /\ fitz_pages L (content up) = None)
  /\ (rep = ReplyError 500 ConverterFailed
      <-> within /\ exists up f w1 d1,
            r = PostPdfCompress (Some up) f
            /\ ends up (py ".pdf")
            /\ cleanup_old_files (clock env) w = Some w1
            /\ static w1 = Some d1
            /\ exited_zero (ghostscript L (compress_command (secure_basename L) env up f)
                              (with_input (secure_basename L) env up d1)) = false)
  /\ (forall code, rep = ReplyError code CompressionFailed ->
        code = 500 /\ within
        /\ exists up f, r = PostPdfCompress (Some up) f /\ ends up (py ".pdf"))
  /\ match rep, r with
     | ReplyExtract _, PostExtract (Some up) => within /\ ends up (py ".pdf")
     | ReplyCleaner _, PostExcelCleaner (Some up) _ =>
         within /\ (ends up (py ".csv") \/ ends up (py ".xlsx"))
     | ReplyCompress _, PostPdfCompress (Some up) _ => within /\ ends up (py ".pdf")
     | ReplyError code e, _ =>
         In (code, e) [(400, MissingFile); (400, UnsupportedFormat);
                       (400, MalformedSpreadsheet); (413, PayloadTooLarge);
                       (500, ExtractionFailed); (500, NormalizationFailed);
                       (500, ConverterFailed); (500, CompressionFailed);
                       (500, InternalServerError)]
     | _, _ => False
     end.
Proof.
  cbv zeta. unfold serve.
  pose proof (cleanup_old_files_static (clock env) w) as Hhook.
  destruct (static w) as [d|] eqn:Hd.
  2:{ rewrite Hhook. cbn [snd]. repeat reply_case. }
  destruct Hhook as (w1 & d1 & Hc & Hs1). rewrite Hc.
  destruct (MAX_CONTENT_LENGTH <? content_length) eqn:Hcap;
    [apply Z.ltb_lt in Hcap | apply Z.ltb_ge in Hcap].
  { cbn [snd handle_file_too_large]. repeat reply_case. }
  destruct r as [file|file f|file f]; cbn [route snd request_file accepts_extension].
  - unfold extract_pdf. destruct file as [up|]; [|repeat reply_case].
    destruct (py_endswith (py_lower U (filename up)) (py ".pdf")) eqn:Hpdf; cbn [negb];
      [|repeat reply_case].
    destruct (fitz_pages L (content up)) eqn:Hfitz; repeat reply_case.
  - unfold excel_cleaner, clean_frame. destruct file as [up|]; [|repeat reply_case]. cbv zeta.
    destruct (py_endswith (py_lower U (filename up)) (py ".csv")) eqn:Hcsv.
    + destruct (read_csv L (content up)) eqn:Hread; cbn [orb]; repeat reply_case.
    + destruct (py_endswith (py_lower U (filename up)) (py ".xlsx")) eqn:Hxlsx; cbn [orb];
        [|repeat reply_case].
      destruct (read_excel L (content up)) eqn:Hread; repeat reply_case.
  - unfold pdf_compress. destruct file as [up|]; [|cbn [snd]; repeat reply_case].
    destruct (py_endswith (py_lower U (filename up)) (py ".pdf")) eqn:Hpdf; cbn [negb];
      [|cbn [snd]; repeat reply_case].
    rewrite (compress_file_normal (secure_basename L) (ghostscript L) env up f w1 d1 Hs1).
    cbv zeta.
    destruct (exited_zero _) eqn:Hexit; cbn [negb snd].
    + destruct (after_gs _ _ _ _ _ _ !! _) as [[mt c rm|]|]; cbn [snd];
        [destruct (gain_percent _ _); cbn [snd]| |]; repeat reply_case.
    + repeat reply_case.
Qed.

(** ** The command and the advisory *)

Lemma gs_quality_cases (mode : pystr) :
  (mode = py "lossless" /\ gs_quality mode = py "/prepress")
  \/ (mode = py "extreme" /\ gs_quality mode = py "/screen")
  \/ (mode <> py "lossless" /\ mode <> py "extreme" /\ gs_quality mode = py "/ebook").
Proof.
  destruct (decide (mode = py "lossless")) as [->|H1]; [left; split; reflexivity|].
  destruct (decide (mode = py "extreme")) as [->|H2];
    [right; left; split; vm_compute; reflexivity|].
  right; right. split; [exact H1|]. split; [exact H2|].
  destruct (decide (mode = py "moderate")) as [->|H3]; [vm_compute; reflexivity|].
  apply gs_quality_unknown; assumption.
Qed.

(** X22: the command handed to Ghostscript always carries one of the three
    profiles: [/prepress] exactly for mode [lossless], [/screen] exactly for
    [extreme], [/ebook] for everything else; it has nine arguments ending
    in the input path, and a tenth, [-r] followed by the resolution as
    given, exactly when a non-empty [resolution] was sent. *)
Theorem gs_command_shape (env : environment) (mode : pystr) (resolution : option pystr)
    (output_path temp_input : pystr) :
  let command := gs_command env mode resolution output_path temp_input in
  (gs_quality mode = py "/prepress" <-> mode = py "lossless")
  /\ (gs_quality mode = py "/screen" <-> mode = py "extreme")
  /\ (gs_quality mode = py "/ebook" <-> mode <> py "lossless" /\ mode <> py "extreme")
  /\ command !! 3%nat = Some (py "-dPDFSETTINGS=" ++ gs_quality mode)
  /\ command !! 7%nat = Some (py "-sOutputFile=" ++ output_path)
  /\ command !! 8%nat = Some temp_input
  /\ match resolution with
     | Some (c :: res) =>
         length command = 10%nat /\ command !! 9%nat = Some (py "-r" ++ c :: res)
     | _ => length command = 9%nat
     end.
Proof.
  cbv zeta. split; [|split; [|split]].
  - destruct (gs_quality_cases mode) as [[-> H]|[[-> H]|(H1 & H2 & H)]]; rewrite H;
      split; try reflexivity; try (intros E; vm_compute in E; discriminate E);
      intros E; congruence.
  - destruct (gs_quality_cases mode) as [[-> H]|[[-> H]|(H1 & H2 & H)]]; rewrite H;
      split; try reflexivity; try (intros E; vm_compute in E; discriminate E);
      intros E; congruence.
  - destruct (gs_quality_cases mode) as [[-> H]|[[-> H]|(H1 & H2 & H)]]; rewrite H;
      split; try (intros E; vm_compute in E; discriminate E); try tauto;
      try (intros [E1 E2]; congruence).
  - unfold gs_command. repeat split; try reflexivity.
    destruct resolution as [[|c res]|]; cbn; auto.
Qed.

(** X23: in a successful reply the advisory is the one that suggests the
    mode [moderate] exactly when the output is not smaller and the mode in
    force is [lossless], given or by default, and the plain one exactly when
    the output is not smaller under any other mode. *)
Theorem pdf_compress_alert_wording (U : UnicodeData) (sb : pystr -> pystr)
    (gs : list pystr -> gmap pystr entry -> gs_result) (env : environment)
    (file : option upload) (f : form) (w w' : world) (r : compression) :
  pdf_compress U sb gs env file f w = (w', ReplyCompress r) ->
  (alert r = Some TryModerate <->
     originalSize r <= compressedSize r /\ compress_mode f = py "lossless")
  /\ (alert r = Some HeavierAfter <->
     originalSize r <= compressedSize r /\ compress_mode f <> py "lossless").
Proof.
  unfold pdf_compress. destruct file as [up|]; [|discriminate].
  destruct (negb _); [discriminate|]. intros H.
  apply compress_file_ok in H. cbv zeta in H. destruct H as (_ & _ & Halert & _).
  fold (compress_mode f) in Halert. rewrite Halert. unfold alert_for, pystr_eqb.
  destruct (originalSize r <=? compressedSize r) eqn:E.
  - apply Z.leb_le in E.
    destruct (bool_decide (compress_mode f = py "lossless")) eqn:D.
    + apply bool_decide_eq_true in D.
      split; split; try tauto; try discriminate; try (intros [_ Hn]; contradiction).
    + apply bool_decide_eq_false in D.
      split; split; try tauto; try discriminate; try (intros [_ Hn]; contradiction).
  - apply Z.leb_gt in E. split; split; try discriminate; intros [? _]; lia.
Qed.

Lemma pdf_compress_alert_wording_witness :
  exists w' r,
    pdf_compress ucd_plain (secure_basename (libraries_with (gs_writes 9))) (gs_writes 9)
      env_example (Some {| filename := py "doc.pdf"; content := [1; 2; 3; 4]%N |}) ∅
      world_empty = (w', ReplyCompress r)
    /\ alert r = Some TryModerate.
Proof.
  eexists _, _.
  assert (H : pdf_compress ucd_plain (secure_basename (libraries_with (gs_writes 9)))
                (gs_writes 9) env_example
                (Some {| filename := py "doc.pdf"; content := [1; 2; 3; 4]%N |}) ∅
                world_empty = (_, ReplyCompress _)) by (vm_compute; reflexivity).
  split; [exact H|].
  apply (pdf_compress_alert_wording _ _ _ _ _ _ _ _ _ H). split; vm_compute; congruence.
Defined.

(** X24: with [cleanEmails] on, a stripped and sanitized value that holds
    an [@] is cleaned to its lower-casing exactly when it has the shape
    [local@domain.tld], alone or followed by one line feed, and to an absent
    cell otherwise; with [sanitizeCharacters] off the line feed cannot
    occur and the shape alone decides. *)
Theorem clean_cell_email_branch_exact (U : UnicodeData) (opts : options) (raw : pystr) :
  clean_emails opts = true ->
  py_in 64 (prepared U opts raw) = true ->
  let value := prepared U opts raw in
  let passes := email_shape value \/ exists v', value = v' ++ [10%N] /\ email_shape v' in
  (clean_cell U opts (Some raw) = Some (py_lower U value) <-> passes)
  /\ (clean_cell U opts (Some raw) = None <-> ~ passes)
  /\ (sanitize_characters opts = false -> (passes <-> email_shape value)).
Proof.
  intros Hce Hat value passes.
  destruct (clean_cell_email_branch U opts raw Hce Hat) as [Hyes Hno].
  fold value in Hyes, Hno. fold passes in Hyes, Hno.
  assert (Hdec : passes \/ ~ passes).
  { pose proof (re_match_anchored_email value) as Hm. fold passes in Hm.
    destruct (re_match_anchored email_re value); [left; apply Hm; reflexivity|].
    right. intros Hp. apply Hm in Hp. discriminate Hp. }
  split; [|split].
  - split; [|exact Hyes]. intros H. destruct Hdec as [Hp|Hn]; [exact Hp|].
    rewrite (Hno Hn) in H. discriminate H.
  - split; [|exact Hno]. intros H Hp. rewrite (Hyes Hp) in H. discriminate H.
  - intros Hs. split; [|left; assumption]. intros [Hsh|(v' & Hv & _)]; [exact Hsh|].
    exfalso. assert (Hprep : value = py_strip raw)
      by (unfold value; rewrite prepared_sanitized, Hs; reflexivity).
    assert (Hl : last (py_strip raw) = Some 10%N)
      by (rewrite <- Hprep, Hv; apply last_snoc).
    apply py_strip_last in Hl. vm_compute in Hl. discriminate Hl.
Qed.

Lemma clean_cell_email_branch_exact_witness :
  clean_cell ucd_plain default_options (Some (py "John@Example.COM "))
  = Some (py "john@example.com").
Proof.
  destruct (clean_cell_email_branch_exact ucd_plain default_options
              (py "John@Example.COM ") eq_refl eq_refl) as ([_ H] & _).
  rewrite H; [reflexivity|]. left.
  exists (py "John"), (py "Example"), (py "COM").
  split; [reflexivity|]. repeat split; try discriminate.
  vm_compute. repeat constructor.
Defined.
